(** * cdns: backend detection, DNS status reading and DNS writing

    A shallow embedding of the Go package [internal/dns/backend]
    (detector.go, reader.go, writer.go) together with the data model of
    [internal/dns/models] and [internal/features/status].

    Go strings are byte strings and are modelled by [string]; an [error]
    is modelled by its message.  External effects (system probes, spawned
    commands, opening /etc/resolv.conf) go through a host description and
    are recorded, in order, in a trace that is threaded through every
    operation. *)

From Stdlib Require Import String Ascii List Bool Arith ZArith NArith Lia.
Import ListNotations.
Local Open Scope list_scope.
Local Open Scope string_scope.

(* ===================================================================== *)
(** * The parts of the Go standard library the package relies on          *)
(* ===================================================================== *)

Module strings.

(** [strings.HasPrefix(s, prefix)]. *)
Definition HasPrefix (s pre : string) : bool := String.prefix pre s.

(** [strings.Contains(s, substr)]. *)
Fixpoint Contains (s substr : string) : bool :=
  String.prefix substr s ||
  match s with
  | EmptyString => false
  | String _ s' => Contains s' substr
  end.

Fixpoint drop (n : nat) (s : string) : string :=
  match n, s with
  | O, _ => s
  | S _, EmptyString => EmptyString
  | S n', String _ s' => drop n' s'
  end.

(** [strings.TrimPrefix(s, prefix)]. *)
Definition TrimPrefix (s pre : string) : string :=
  if HasPrefix s pre then drop (String.length pre) s else s.

(** [strings.Cut]-like helper: the text before and after the first
    occurrence of a non-empty separator. *)
Fixpoint cut (sep s : string) : option (string * string) :=
  if String.prefix sep s then Some (EmptyString, drop (String.length sep) s)
  else match s with
       | EmptyString => None
       | String c s' =>
           match cut sep s' with
           | Some (before, after) => Some (String c before, after)
           | None => None
           end
       end.

Fixpoint splitFuel (fuel : nat) (sep s : string) : list string :=
  match fuel with
  | O => [s]
  | S fuel' =>
      match cut sep s with
      | None => [s]
      | Some (before, after) => before :: splitFuel fuel' sep after
      end
  end.

(** [strings.Split(s, sep)] for a non-empty separator: every occurrence
    of [sep] cuts, so the fuel [length s] is never exhausted. *)
Definition Split (s sep : string) : list string :=
  splitFuel (String.length s) sep s.

(** [strings.SplitN(s, sep, n)] for a non-empty separator: at most [n]
    pieces when [n > 0], no piece when [n = 0], all of them when
    [n < 0]. *)
Definition SplitN (s sep : string) (n : Z) : list string :=
  if (n =? 0)%Z then []
  else if (n <? 0)%Z then Split s sep
  else splitFuel (Nat.min (Z.to_nat n - 1) (String.length s)) sep s.

(** [strings.Join(elems, sep)]. *)
Definition Join (elems : list string) (sep : string) : string :=
  String.concat sep elems.

(** ** White space, as [unicode.IsSpace] sees it in UTF-8 text *)

Definition isASCIISpace (x : N) : bool :=
  ((x =? 9) || (x =? 10) || (x =? 11) || (x =? 12) || (x =? 13) || (x =? 32))%N.

(** U+0085 and U+00A0. *)
Definition isSpace2 (x y : N) : bool :=
  ((x =? 194) && ((y =? 133) || (y =? 160)))%N.

(** U+1680, U+2000..U+200A, U+2028, U+2029, U+202F, U+205F, U+3000. *)
Definition isSpace3 (x y z : N) : bool :=
  (((x =? 225) && (y =? 154) && (z =? 128))
   || ((x =? 226) && (y =? 128) &&
       (((128 <=? z) && (z <=? 138)) || (z =? 168) || (z =? 169) || (z =? 175)))
   || ((x =? 226) && (y =? 129) && (z =? 159))
   || ((x =? 227) && (y =? 128) && (z =? 128)))%N.

(** Number of bytes of the white-space rune [s] starts with; [0] when
    [s] does not start with one. *)
Definition spaceRuneLen (s : string) : nat :=
  match s with
  | EmptyString => 0
  | String a s1 =>
      if isASCIISpace (N_of_ascii a) then 1
      else match s1 with
           | EmptyString => 0
           | String b s2 =>
               if isSpace2 (N_of_ascii a) (N_of_ascii b) then 2
               else match s2 with
                    | EmptyString => 0
                    | String c _ =>
                        if isSpace3 (N_of_ascii a) (N_of_ascii b) (N_of_ascii c)
                        then 3 else 0
                    end
           end
  end.

Fixpoint trimLeftFuel (fuel : nat) (s : string) : string :=
  match fuel with
  | O => s
  | S fuel' =>
      match spaceRuneLen s with
      | O => s
      | k => trimLeftFuel fuel' (drop k s)
      end
  end.

Definition trimLeftSpace (s : string) : string :=
  trimLeftFuel (String.length s) s.

(** [s] is made of white-space runes only. *)
Definition allSpace (s : string) : bool :=
  match trimLeftSpace s with EmptyString => true | _ => false end.

Fixpoint trimRightSpace (s : string) : string :=
  match s with
  | EmptyString => EmptyString
  | String c s' => if allSpace s then EmptyString else String c (trimRightSpace s')
  end.

(** [strings.TrimSpace(s)]. *)
Definition TrimSpace (s : string) : string :=
  trimRightSpace (trimLeftSpace s).

(** The longest prefix of [s] free of white space, and what follows. *)
Fixpoint spanWord (s : string) : string * string :=
  match s with
  | EmptyString => (EmptyString, EmptyString)
  | String c s' =>
      match spaceRuneLen s with
      | O => let (w, rest) := spanWord s' in (String c w, rest)
      | _ => (EmptyString, s)
      end
  end.

Fixpoint fieldsFuel (fuel : nat) (s : string) : list string :=
  match fuel with
  | O => []
  | S fuel' =>
      match trimLeftSpace s with
      | EmptyString => []
      | s1 => let (w, rest) := spanWord s1 in w :: fieldsFuel fuel' rest
      end
  end.

(** [strings.Fields(s)]: the maximal runs of non-space bytes. *)
Definition Fields (s : string) : list string :=
  fieldsFuel (String.length s) s.

Definition inCutset (cutset : string) (c : ascii) : bool :=
  existsb (Ascii.eqb c) (list_ascii_of_string cutset).

Fixpoint trimLeftSet (cutset s : string) : string :=
  match s with
  | EmptyString => EmptyString
  | String c s' => if inCutset cutset c then trimLeftSet cutset s' else s
  end.

Fixpoint trimRightSet (cutset s : string) : string :=
  match s with
  | EmptyString => EmptyString
  | String c s' =>
      if forallb (inCutset cutset) (list_ascii_of_string s) then EmptyString
      else String c (trimRightSet cutset s')
  end.

(** [strings.Trim(s, cutset)] for a cutset of ASCII characters. *)
Definition Trim (s cutset : string) : string :=
  trimRightSet cutset (trimLeftSet cutset s).

End strings.

Module bufio.

(** [bufio.MaxScanTokenSize]. *)
Definition MaxScanTokenSize : Z := 64 * 1024.

(** Message of [bufio.ErrTooLong]. *)
Definition ErrTooLong : string := "bufio.Scanner: token too long".

Definition newline : ascii := ascii_of_nat 10.
Definition carriageReturn : ascii := ascii_of_nat 13.

(** The text cut at every newline; a last piece without a newline is a
    line when it is not empty. *)
Fixpoint rawLines (s : string) : list string :=
  match s with
  | EmptyString => []
  | String c s' =>
      if Ascii.eqb c newline then EmptyString :: rawLines s'
      else match rawLines s' with
           | [] => [String c EmptyString]
           | l :: ls => String c l :: ls
           end
  end.

(** [dropCR]: one trailing carriage return is not part of the line. *)
Fixpoint dropCR (l : string) : string :=
  match l with
  | EmptyString => EmptyString
  | String c EmptyString => if Ascii.eqb c carriageReturn then EmptyString else l
  | String c l' => String c (dropCR l')
  end.

(** A line fits the scanner's buffer when it is shorter than
    [MaxScanTokenSize] bytes (the buffer must also hold its newline,
    or find room to read the end of the input). *)
Definition fits (l : string) : bool :=
  (Z.of_nat (String.length l) <? MaxScanTokenSize)%Z.

(** A [bufio.Scanner] with the default split function [ScanLines] run
    to its end over [input]: the tokens that [Scan] delivered, and what
    [Err] reports afterwards. *)
Fixpoint scanTokens (raw : list string) : list string * option string :=
  match raw with
  | [] => ([], None)
  | l :: rest =>
      if fits l then
        let (ts, e) := scanTokens rest in (dropCR l :: ts, e)
      else ([], Some ErrTooLong)
  end.

Definition Scan (input : string) : list string * option string :=
  scanTokens (rawLines input).

End bufio.

Definition nl : string := String bufio.newline EmptyString.

(* ===================================================================== *)
(** * Data model                                                          *)
(* ===================================================================== *)

(** A Go [error], by its message.  [fmt.Errorf] with [%w] or [%v] puts
    the message of the wrapped error into the new one. *)
Definition error : Type := string.

Module models.

(** [type Backend string]. *)
Definition Backend : Type := string.

Definition BackendNetworkManager : Backend := "NetworkManager".
Definition BackendSystemdResolved : Backend := "systemd-resolved".
Definition BackendResolvConf : Backend := "resolv.conf".
Definition BackendNetplan : Backend := "netplan".

Record DNSServer : Type := mkDNSServer {
  IPv4 : list string;
  IPv6 : list string;
  Description : string
}.

(** The field [Backend] of the Go struct is [Backend_] here, next to the
    type of the same name. *)
Record NetworkInterface : Type := mkNetworkInterface {
  Name : string;
  Backend_ : Backend
}.

Record DNSConfig : Type := mkDNSConfig {
  Interface : NetworkInterface;
  DNS : DNSServer
}.

End models.

Module status.

Record InterfaceStatus : Type := mkInterfaceStatus {
  Name : string;
  IPv4 : list string;
  IPv6 : list string
}.

Record StatusInfo : Type := mkStatusInfo {
  Backend : models.Backend;
  Interfaces : list InterfaceStatus;
  Managed : bool;
  Warnings : list string
}.

End status.

(* ===================================================================== *)
(** * The host: probes, spawned commands, files                           *)
(* ===================================================================== *)

(** [type SystemOps interface]. *)
Record SystemOps : Type := mkSystemOps {
  CommandExists : string -> bool;
  ServiceRunning : string -> bool * option error;
  FileExists : string -> bool;
  IsRegularFile : string -> bool * option error;
  IsSymlink : string -> bool * option error
}.

(** What the operating system answers to [DefaultSystemOps]. *)
Inductive RunError : Type :=
| ExitError (msg : string)      (* the command ran and exited non-zero *)
| StartError (msg : string).    (* the command could not be run *)

Record FileMode : Type := mkFileMode {
  IsRegular : bool;
  ModeSymlink : bool
}.

Record OS : Type := mkOS {
  LookPath : string -> option error;
  systemctlIsActive : string -> option RunError;
  Stat : string -> FileMode + error;
  Lstat : string -> FileMode + error
}.

(** [DefaultSystemOps]: the probes on real system calls. *)
Definition DefaultSystemOps (os : OS) : SystemOps := {|
  CommandExists cmd :=
    match LookPath os cmd with None => true | Some _ => false end;
  ServiceRunning service :=
    match systemctlIsActive os service with
    | Some (ExitError _) => (false, None)
    | Some (StartError msg) => (false, Some ("failed to check service status: " ++ msg))
    | None => (true, None)
    end;
  FileExists path :=
    match Stat os path with inl _ => true | inr _ => false end;
  IsRegularFile path :=
    match Stat os path with
    | inr err => (false, Some err)
    | inl info => (IsRegular info, None)
    end;
  IsSymlink path :=
    match Lstat os path with
    | inr err => (false, Some err)
    | inl info => (ModeSymlink info, None)
    end
|}.

(** What the package does to the host, in the order it does it. *)
Inductive Event : Type :=
| CommandExistsEv (cmd : string)
| ServiceRunningEv (service : string)
| FileExistsEv (path : string)
| IsRegularFileEv (path : string)
| IsSymlinkEv (path : string)
| ExecEv (argv : list string)
| OpenEv (path : string).

Definition Trace : Type := list Event.

(** Outcome of a spawned command: [cmd.Output()] returns [stdout] and
    [exitErr], [cmd.CombinedOutput()] returns [combined] and [exitErr]. *)
Record ExecResult : Type := mkExecResult {
  stdout : string;
  combined : string;
  exitErr : option error
}.

(** The host answers a command or an [os.Open] according to everything
    that was done to it before; the probes are pure queries. *)
Record Host : Type := mkHost {
  sysOps : SystemOps;
  exec : Trace -> list string -> ExecResult;
  openFile : Trace -> string -> string + error
}.

(** ** Computations over the trace *)

Definition M (A : Type) : Type := Trace -> A * Trace.

Definition ret {A} (a : A) : M A := fun tr => (a, tr).

Definition bind {A B} (m : M A) (k : A -> M B) : M B :=
  fun tr => let (a, tr') := m tr in k a tr'.

Declare Scope go_scope.
Delimit Scope go_scope with go.
Notation "x <- m ;; k" := (bind m (fun x => k))
  (at level 61, m at next level, right associativity) : go_scope.
Notation "' p <- m ;; k" := (bind m (fun x => let p := x in k))
  (at level 61, p pattern, m at next level, right associativity) : go_scope.
Local Open Scope go_scope.

Definition emit {A} (ev : Event) (a : A) : M A := fun tr => (a, (tr ++ [ev])%list).

(** A call of a probe through the [sysOps] of the host, recorded in the
    trace. *)
Module probe.
Definition CommandExists (h : Host) (cmd : string) : M bool :=
  emit (CommandExistsEv cmd) (CommandExists (sysOps h) cmd).
Definition ServiceRunning (h : Host) (service : string) : M (bool * option error) :=
  emit (ServiceRunningEv service) (ServiceRunning (sysOps h) service).
Definition FileExists (h : Host) (path : string) : M bool :=
  emit (FileExistsEv path) (FileExists (sysOps h) path).
Definition IsRegularFile (h : Host) (path : string) : M (bool * option error) :=
  emit (IsRegularFileEv path) (IsRegularFile (sysOps h) path).
Definition IsSymlink (h : Host) (path : string) : M (bool * option error) :=
  emit (IsSymlinkEv path) (IsSymlink (sysOps h) path).
End probe.

Section Commands.
Variable h : Host.

(** [exec.CommandContext(ctx, argv...).Output()]. *)
Definition Output (argv : list string) : M (string * option error) :=
  fun tr => let r := exec h tr argv in ((stdout r, exitErr r), (tr ++ [ExecEv argv])%list).

(** [exec.CommandContext(ctx, argv...).CombinedOutput()]. *)
Definition CombinedOutput (argv : list string) : M (string * option error) :=
  fun tr => let r := exec h tr argv in ((combined r, exitErr r), (tr ++ [ExecEv argv])%list).

(** [os.Open(path)], with the content the scanner will read. *)
Definition Open (path : string) : M (string + error) :=
  fun tr => (openFile h tr path, (tr ++ [OpenEv path])%list).
End Commands.

(* ===================================================================== *)
(** * detector.go                                                         *)
(* ===================================================================== *)

Definition nmcliMissing : error :=
  "NetworkManager is running but 'nmcli' command is missing." ++ nl ++ nl ++
  "To continue, please install the NetworkManager CLI tool:" ++ nl ++
  "  - Debian/Ubuntu: sudo apt install network-manager" ++ nl ++
  "  - Fedora/RHEL: sudo dnf install NetworkManager" ++ nl ++
  "  - Arch Linux: sudo pacman -S networkmanager".

Section Detector.
Variable h : Host.

(** Step 3 of [DetectWithReason] and the final failure. *)
Definition detectResolvConf : M (models.Backend * string * option error) :=
  exists_ <- probe.FileExists h "/etc/resolv.conf" ;;
  let notFound : M (models.Backend * string * option error) :=
    ret ("", "no supported DNS backend found",
         Some "no supported DNS backend found") in
  if exists_ then
    '(isSymlink, err) <- probe.IsSymlink h "/etc/resolv.conf" ;;
    match err with
    | Some e => ret ("", "", Some ("failed to check if resolv.conf is a symlink: " ++ e))
    | None =>
        if isSymlink then
          ret ("", "resolv.conf is a symlink (managed by a service)",
               Some "resolv.conf is managed by a service")
        else
          '(isRegular, err) <- probe.IsRegularFile h "/etc/resolv.conf" ;;
          match err with
          | Some e =>
              ret ("", "", Some ("failed to check if resolv.conf is a regular file: " ++ e))
          | None =>
              if isRegular then
                ret (models.BackendResolvConf,
                     "/etc/resolv.conf exists and is a regular file (not managed by a service)",
                     None)
              else notFound
          end
    end
  else notFound.

(** Step 2 of [DetectWithReason], falling through to step 3. *)
Definition detectSystemdResolved : M (models.Backend * string * option error) :=
  hasResolvectl <- probe.CommandExists h "resolvectl" ;;
  hasSystemdResolve <- probe.CommandExists h "systemd-resolve" ;;
  if hasResolvectl || hasSystemdResolve then
    '(running, err) <- probe.ServiceRunning h "systemd-resolved" ;;
    match err with
    | Some e => ret ("", "", Some ("failed to check systemd-resolved status: " ++ e))
    | None =>
        if running then
          let cmdName := if negb hasResolvectl then "systemd-resolve" else "resolvectl" in
          ret (models.BackendSystemdResolved,
               cmdName ++ " command available and systemd-resolved service is running",
               None)
        else detectResolvConf
    end
  else detectResolvConf.

(** [func (d *Detector) DetectWithReason() (models.Backend, string, error)]. *)
Definition DetectWithReason : M (models.Backend * string * option error) :=
  '(nmRunning, _) <- probe.ServiceRunning h "NetworkManager" ;;
  if nmRunning then
    hasNmcli <- probe.CommandExists h "nmcli" ;;
    if hasNmcli then
      ret (models.BackendNetworkManager,
           "nmcli command available and NetworkManager service is running",
           None)
    else ret ("", "", Some nmcliMissing)
  else detectSystemdResolved.

(** [func (d *Detector) Detect() (models.Backend, error)]. *)
Definition Detect : M (models.Backend * option error) :=
  '(backend, _, err) <- DetectWithReason ;;
  ret (backend, err).
End Detector.

(* ===================================================================== *)
(** * reader.go                                                           *)
(* ===================================================================== *)

Definition appendWarning (info : status.StatusInfo) (w : string) : status.StatusInfo :=
  status.mkStatusInfo (status.Backend info) (status.Interfaces info)
    (status.Managed info) (status.Warnings info ++ [w])%list.

Definition appendInterface (info : status.StatusInfo) (i : status.InterfaceStatus)
  : status.StatusInfo :=
  status.mkStatusInfo (status.Backend info) (status.Interfaces info ++ [i])%list
    (status.Managed info) (status.Warnings info).

Definition setInterfaces (info : status.StatusInfo) (ifaces : list status.InterfaceStatus)
  : status.StatusInfo :=
  status.mkStatusInfo (status.Backend info) ifaces (status.Managed info) (status.Warnings info).

(** [len(xs) > 0]. *)
Definition nonEmpty {A} (xs : list A) : bool := (0 <? length xs)%nat.

(** The scanning loop of [getDNSForConnection]. *)
Fixpoint dnsFieldsLoop (lines : list string) (ipv4 ipv6 : list string)
  : list string * list string :=
  match lines with
  | [] => (ipv4, ipv6)
  | line :: rest =>
      if strings.HasPrefix line "IP4.DNS" then
        let parts := strings.SplitN line ":" 2 in
        if (length parts =? 2)%nat && negb (nth 1 parts "" =? "")%string then
          dnsFieldsLoop rest (ipv4 ++ [strings.TrimSpace (nth 1 parts "")])%list ipv6
        else dnsFieldsLoop rest ipv4 ipv6
      else if strings.HasPrefix line "IP6.DNS" then
        let parts := strings.SplitN line ":" 2 in
        if (length parts =? 2)%nat && negb (nth 1 parts "" =? "")%string then
          dnsFieldsLoop rest ipv4 (ipv6 ++ [strings.TrimSpace (nth 1 parts "")])%list
        else dnsFieldsLoop rest ipv4 ipv6
      else dnsFieldsLoop rest ipv4 ipv6
  end.

(** Address classification shared by the systemd-resolved and
    resolv.conf parsers: a colon means IPv6. *)
Definition addAddr (addr : string) (ipv4 ipv6 : list string) : list string * list string :=
  if strings.Contains addr ":" then (ipv4, (ipv6 ++ [addr])%list)
  else ((ipv4 ++ [addr])%list, ipv6).

Definition addAddrTo (cur : status.InterfaceStatus) (addr : string) : status.InterfaceStatus :=
  let (v4, v6) := addAddr addr (status.IPv4 cur) (status.IPv6 cur) in
  status.mkInterfaceStatus (status.Name cur) v4 v6.

Definition hasDNS (i : status.InterfaceStatus) : bool :=
  nonEmpty (status.IPv4 i) || nonEmpty (status.IPv6 i).

(** Saving the section that ends: kept only with at least one address. *)
Definition saveInterface (interfaces : list status.InterfaceStatus)
    (currentInterface : option status.InterfaceStatus) : list status.InterfaceStatus :=
  match currentInterface with
  | Some cur => if hasDNS cur then (interfaces ++ [cur])%list else interfaces
  | None => interfaces
  end.

(** The scanning loop of [parseSystemdResolvedOutput]. *)
Fixpoint resolvedLoop (lines : list string) (interfaces : list status.InterfaceStatus)
    (currentInterface : option status.InterfaceStatus)
  : list status.InterfaceStatus * option status.InterfaceStatus :=
  match lines with
  | [] => (interfaces, currentInterface)
  | text :: rest =>
      let line := strings.TrimSpace text in
      if strings.HasPrefix line "Link " then
        let interfaces' := saveInterface interfaces currentInterface in
        let parts := strings.Fields line in
        if (3 <=? length parts)%nat then
          let name := strings.Trim (nth 2 parts "") "()" in
          resolvedLoop rest interfaces' (Some (status.mkInterfaceStatus name [] []))
        else resolvedLoop rest interfaces' currentInterface
      else
        match currentInterface with
        | None => resolvedLoop rest interfaces currentInterface
        | Some cur =>
            if strings.HasPrefix line "Current DNS Server:"
               || strings.HasPrefix line "DNS Servers:" then
              let parts := strings.SplitN line ":" 2 in
              if (length parts =? 2)%nat then
                let addr := strings.TrimSpace (nth 1 parts "") in
                resolvedLoop rest interfaces (Some (addAddrTo cur addr))
              else resolvedLoop rest interfaces currentInterface
            else if strings.HasPrefix line "- " then
              let addr := strings.TrimSpace (strings.TrimPrefix line "- ") in
              if negb (addr =? "")%string then
                resolvedLoop rest interfaces (Some (addAddrTo cur addr))
              else resolvedLoop rest interfaces currentInterface
            else resolvedLoop rest interfaces currentInterface
        end
  end.

(** [parseSystemdResolvedOutput]: what the scanner cannot deliver is
    silently dropped, [scanner.Err()] is not looked at. *)
Definition parseSystemdResolvedOutput (output : string) : list status.InterfaceStatus :=
  let (interfaces, currentInterface) := resolvedLoop (fst (bufio.Scan output)) [] None in
  saveInterface interfaces currentInterface.

(** The scanning loop of [readResolvConf]. *)
Fixpoint resolvConfLoop (lines : list string) (ipv4 ipv6 : list string)
  : list string * list string :=
  match lines with
  | [] => (ipv4, ipv6)
  | text :: rest =>
      let line := strings.TrimSpace text in
      if strings.HasPrefix line "#" || (line =? "")%string then
        resolvConfLoop rest ipv4 ipv6
      else if strings.HasPrefix line "nameserver" then
        let fields := strings.Fields line in
        if (2 <=? length fields)%nat then
          let (ipv4', ipv6') := addAddr (nth 1 fields "") ipv4 ipv6 in
          resolvConfLoop rest ipv4' ipv6'
        else resolvConfLoop rest ipv4 ipv6
      else resolvConfLoop rest ipv4 ipv6
  end.

Definition nmListConnections : list string :=
  ["nmcli"; "-t"; "-f"; "NAME,DEVICE"; "connection"; "show"; "--active"].

Definition nmShowDNS (connName : string) : list string :=
  ["nmcli"; "-t"; "-f"; "IP4.DNS,IP6.DNS"; "connection"; "show"; connName].

Section Reader.
Variable h : Host.

(** [getDNSForConnection]. *)
Definition getDNSForConnection (connName : string)
  : M (list string * list string * option error) :=
  '(output, err) <- Output h (nmShowDNS connName) ;;
  match err with
  | Some e => ret ([], [], Some e)
  | None =>
      let (lines, scanErr) := bufio.Scan output in
      let (ipv4, ipv6) := dnsFieldsLoop lines [] [] in
      ret (ipv4, ipv6, scanErr)
  end.

(** The scanning loop of [readNetworkManager]. *)
Fixpoint activeConnectionsLoop (lines : list string) (info : status.StatusInfo)
  : M status.StatusInfo :=
  match lines with
  | [] => ret info
  | line :: rest =>
      let parts := strings.Split line ":" in
      if (length parts <? 2)%nat then activeConnectionsLoop rest info
      else
        let device := nth 1 parts "" in
        if (device =? "")%string then activeConnectionsLoop rest info
        else
          '(ipv4, ipv6, err) <- getDNSForConnection (nth 0 parts "") ;;
          match err with
          | Some e =>
              activeConnectionsLoop rest
                (appendWarning info ("failed to get DNS for " ++ device ++ ": " ++ e))
          | None =>
              if nonEmpty ipv4 || nonEmpty ipv6 then
                activeConnectionsLoop rest
                  (appendInterface info (status.mkInterfaceStatus device ipv4 ipv6))
              else activeConnectionsLoop rest info
          end
  end.

(** [readNetworkManager]. *)
Definition readNetworkManager : M (option status.StatusInfo * option error) :=
  let info := status.mkStatusInfo models.BackendNetworkManager [] true [] in
  '(output, err) <- Output h nmListConnections ;;
  match err with
  | Some e => ret (None, Some ("failed to get active connections: " ++ e))
  | None =>
      let (lines, scanErr) := bufio.Scan output in
      info' <- activeConnectionsLoop lines info ;;
      match scanErr with
      | Some e => ret (None, Some ("error reading nmcli output: " ++ e))
      | None => ret (Some info', None)
      end
  end.

(** [readSystemdResolved]. *)
Definition readSystemdResolved : M (option status.StatusInfo * option error) :=
  let info := status.mkStatusInfo models.BackendSystemdResolved [] true [] in
  let run (argv : list string) : M (option status.StatusInfo * option error) :=
    '(output, err) <- Output h argv ;;
    match err with
    | Some e => ret (None, Some ("failed to get systemd-resolved status: " ++ e))
    | None => ret (Some (setInterfaces info (parseSystemdResolvedOutput output)), None)
    end in
  hasResolvectl <- probe.CommandExists h "resolvectl" ;;
  if hasResolvectl then run ["resolvectl"; "status"]
  else
    hasSystemdResolve <- probe.CommandExists h "systemd-resolve" ;;
    if hasSystemdResolve then run ["systemd-resolve"; "--status"]
    else ret (None, Some "neither resolvectl nor systemd-resolve found").

(** [readResolvConf]; the opened file delivers its whole content to
    the scanner. *)
Definition readResolvConf : M (option status.StatusInfo * option error) :=
  let info := status.mkStatusInfo models.BackendResolvConf [] false [] in
  file <- Open h "/etc/resolv.conf" ;;
  match file with
  | inr e => ret (None, Some ("failed to open /etc/resolv.conf: " ++ e))
  | inl content =>
      let (lines, scanErr) := bufio.Scan content in
      let (ipv4, ipv6) := resolvConfLoop lines [] [] in
      match scanErr with
      | Some e => ret (None, Some ("error reading /etc/resolv.conf: " ++ e))
      | None =>
          if nonEmpty ipv4 || nonEmpty ipv6 then
            ret (Some (appendInterface info (status.mkInterfaceStatus "system" ipv4 ipv6)),
                 None)
          else ret (Some info, None)
      end
  end.

(** [func (r *ConfigReader) ReadDNSConfig(ctx, backend)]. *)
Definition ReadDNSConfig (backend : models.Backend)
  : M (option status.StatusInfo * option error) :=
  if (backend =? models.BackendNetworkManager)%string then readNetworkManager
  else if (backend =? models.BackendSystemdResolved)%string then readSystemdResolved
  else if (backend =? models.BackendResolvConf)%string then readResolvConf
  else ret (None, Some ("unsupported backend: " ++ backend)).
End Reader.

(* ===================================================================== *)
(** * writer.go                                                           *)
(* ===================================================================== *)

(** Statements that can [return err]: [None] lets control go on. *)
Definition thenDo (m k : M (option error)) : M (option error) :=
  r <- m ;;
  match r with
  | Some e => ret (Some e)
  | None => k
  end.

(** [for _, x := range xs { body }; return nil], where the body either
    returns an error from the enclosing function or ends the iteration
    ([continue] included). *)
Fixpoint forRange {A} (body : A -> M (option error)) (xs : list A) : M (option error) :=
  match xs with
  | [] => ret None
  | x :: rest => thenDo (body x) (forRange body rest)
  end.

Definition nmShowConnection (iface : string) : list string :=
  ["nmcli"; "-g"; "GENERAL.CONNECTION"; "device"; "show"; iface].

Definition nmModify (connName key value flag onoff : string) : list string :=
  ["nmcli"; "connection"; "modify"; connName; key; value; flag; onoff].

Definition nmReapply (iface : string) : list string :=
  ["nmcli"; "device"; "reapply"; iface].

Section Writer.
Variable h : Host.

(** [getNMConnection]. *)
Definition getNMConnection (iface : string) : M (string * option error) :=
  '(out, err) <- CombinedOutput h (nmShowConnection iface) ;;
  match err with
  | Some e => ret ("", Some ("nmcli error: " ++ strings.TrimSpace out ++ ": " ++ e))
  | None =>
      let res := strings.TrimSpace out in
      if (res =? "")%string then
        ret ("", Some ("no active connection found for interface " ++ iface))
      else ret (res, None)
  end.

(** Body of the loop of [applyNetworkManager]. *)
Definition applyNetworkManagerBody (cfg : models.DNSConfig) : M (option error) :=
  let name := models.Name (models.Interface cfg) in
  if (name =? "")%string then ret None
  else
    '(connName, err) <- getNMConnection name ;;
    match err with
    | Some e => ret (Some ("failed to get active connection for " ++ name ++ ": " ++ e))
    | None =>
        thenDo
          (if nonEmpty (models.IPv4 (models.DNS cfg)) then
             let dnsStr := strings.Join (models.IPv4 (models.DNS cfg)) " " in
             '(output, err) <- CombinedOutput h
                (nmModify connName "ipv4.dns" dnsStr "ipv4.ignore-auto-dns" "yes") ;;
             match err with
             | Some e =>
                 ret (Some ("failed to set IPv4 DNS for " ++ name ++ " (conn: " ++ connName
                            ++ "): " ++ strings.TrimSpace output ++ ": " ++ e))
             | None => ret None
             end
           else ret None)
       (thenDo
          (if nonEmpty (models.IPv6 (models.DNS cfg)) then
             let dnsStr := strings.Join (models.IPv6 (models.DNS cfg)) " " in
             '(output, err) <- CombinedOutput h
                (nmModify connName "ipv6.dns" dnsStr "ipv6.ignore-auto-dns" "yes") ;;
             match err with
             | Some e =>
                 ret (Some ("failed to set IPv6 DNS for " ++ name ++ " (conn: " ++ connName
                            ++ "): " ++ strings.TrimSpace output ++ ": " ++ e))
             | None => ret None
             end
           else ret None)
          ('(output, err) <- CombinedOutput h (nmReapply name) ;;
           match err with
           | Some e =>
               ret (Some ("failed to reapply configuration on device " ++ name ++ ": "
                          ++ output ++ ": " ++ e))
           | None => ret None
           end))
    end.

(** [applyNetworkManager]. *)
Definition applyNetworkManager (configs : list models.DNSConfig) : M (option error) :=
  forRange applyNetworkManagerBody configs.

(** Body of the loop of [applySystemdResolved]. *)
Definition applySystemdResolvedBody (cfg : models.DNSConfig) : M (option error) :=
  let name := models.Name (models.Interface cfg) in
  if (name =? "")%string then ret None
  else
    let allDNS := (models.IPv4 (models.DNS cfg) ++ models.IPv6 (models.DNS cfg))%list in
    if (length allDNS =? 0)%nat then ret None
    else
      let args := (["dns"; name] ++ allDNS)%list in
      '(output, err) <- CombinedOutput h ("resolvectl" :: args) ;;
      match err with
      | Some e =>
          ret (Some ("failed to set DNS for " ++ name ++ " via resolvectl: "
                     ++ strings.TrimSpace output ++ ": " ++ e))
      | None => ret None
      end.

(** [applySystemdResolved]. *)
Definition applySystemdResolved (configs : list models.DNSConfig) : M (option error) :=
  forRange applySystemdResolvedBody configs.

(** [func (w *ConfigWriter) Apply(ctx, backend, configs) error]. *)
Definition Apply (backend : models.Backend) (configs : list models.DNSConfig)
  : M (option error) :=
  if (backend =? models.BackendNetworkManager)%string then applyNetworkManager configs
  else if (backend =? models.BackendSystemdResolved)%string then applySystemdResolved configs
  else ret (Some ("unsupported backend for writing: " ++ backend)).

(** Body of the loop of [resetNetworkManager]. *)
Definition resetNetworkManagerBody (iface : string) : M (option error) :=
  '(connName, err) <- getNMConnection iface ;;
  match err with
  | Some e => ret (Some ("failed to get connection for " ++ iface ++ ": " ++ e))
  | None =>
      thenDo
        ('(output, err) <- CombinedOutput h
            (nmModify connName "ipv4.dns" "" "ipv4.ignore-auto-dns" "no") ;;
         match err with
         | Some e =>
             ret (Some ("failed to reset IPv4 DNS for " ++ iface ++ ": "
                        ++ strings.TrimSpace output ++ ": " ++ e))
         | None => ret None
         end)
     (thenDo
        ('(output, err) <- CombinedOutput h
            (nmModify connName "ipv6.dns" "" "ipv6.ignore-auto-dns" "no") ;;
         match err with
         | Some e =>
             ret (Some ("failed to reset IPv6 DNS for " ++ iface ++ ": "
                        ++ strings.TrimSpace output ++ ": " ++ e))
         | None => ret None
         end)
        ('(output, err) <- CombinedOutput h (nmReapply iface) ;;
         match err with
         | Some e =>
             ret (Some ("failed to reapply configuration on " ++ iface ++ ": "
                        ++ strings.TrimSpace output ++ ": " ++ e))
         | None => ret None
         end))
  end.

(** [resetNetworkManager]. *)
Definition resetNetworkManager (interfaces : list string) : M (option error) :=
  forRange resetNetworkManagerBody interfaces.

(** Body of the loop of [resetSystemdResolved]. *)
Definition resetSystemdResolvedBody (iface : string) : M (option error) :=
  '(output, err) <- CombinedOutput h ["resolvectl"; "revert"; iface] ;;
  match err with
  | Some e =>
      ret (Some ("failed to revert DNS for " ++ iface ++ ": "
                 ++ strings.TrimSpace output ++ ": " ++ e))
  | None => ret None
  end.

(** [resetSystemdResolved]. *)
Definition resetSystemdResolved (interfaces : list string) : M (option error) :=
  forRange resetSystemdResolvedBody interfaces.

(** [func (w *ConfigWriter) ResetToAutomatic(ctx, backend, interfaces) error]. *)
Definition ResetToAutomatic (backend : models.Backend) (interfaces : list string)
  : M (option error) :=
  if (backend =? models.BackendNetworkManager)%string then resetNetworkManager interfaces
  else if (backend =? models.BackendSystemdResolved)%string then resetSystemdResolved interfaces
  else ret (Some ("unsupported backend for reset: " ++ backend)).
End Writer.

(* ===================================================================== *)
(** * Vocabulary of the properties                                        *)
(* ===================================================================== *)

(** Steps 1 and 2 of the detection hand over to the next step: the
    NetworkManager service is not reported running; and no
    systemd-resolved tool is installed, or its service is reported
    inactive without a query error. *)
Definition nmPassedOver (h : Host) : Prop :=
  fst (ServiceRunning (sysOps h) "NetworkManager") = false.

Definition resolvedPassedOver (h : Host) : Prop :=
  CommandExists (sysOps h) "resolvectl" || CommandExists (sysOps h) "systemd-resolve" = false
  \/ ServiceRunning (sysOps h) "systemd-resolved" = (false, None).

(** A computation only ever adds events at the end of the trace. *)
Definition appends {A} (m : M A) : Prop :=
  forall tr, exists evs, snd (m tr) = (tr ++ evs)%list.

(** ** What the specification says of a resolv.conf read *)

(** The lines of a text: cut at the newlines, a carriage return before
    the newline not being part of the line. *)
Definition textLines (content : string) : list string :=
  map bufio.dropCR (bufio.rawLines content).

(** Every line is short enough for the scanner's buffer, that is shorter
    than [bufio.MaxScanTokenSize] bytes. *)
Definition linesFit (content : string) : bool :=
  forallb bufio.fits (bufio.rawLines content).

(** Blank lines and comment lines: nothing, or [#] first, once the
    surrounding white space is removed. *)
Definition specIgnoredLine (text : string) : bool :=
  let line := strings.TrimSpace text in
  (line =? "")%string || strings.HasPrefix line "#".

(** The address token of a [nameserver] directive: on a line that is
    neither blank nor a comment, whose first token is the keyword
    [nameserver] and which has a second token, that second token. *)
Definition specNameserverAddr (text : string) : option string :=
  if specIgnoredLine text then None
  else match strings.Fields (strings.TrimSpace text) with
       | keyword :: addr :: _ =>
           if (keyword =? "nameserver")%string then Some addr else None
       | _ => None
       end.

(** The addresses of the directives, in file order. *)
Definition specAddresses (lines : list string) : list string :=
  flat_map (fun text => match specNameserverAddr text with
                        | Some addr => [addr]
                        | None => []
                        end) lines.

Definition specIsIPv6 (addr : string) : bool := strings.Contains addr ":".

Definition specResolvConfStatus (lines : list string) : status.StatusInfo :=
  let addrs := specAddresses lines in
  status.mkStatusInfo models.BackendResolvConf
    match addrs with
    | [] => []
    | _ => [status.mkInterfaceStatus "system"
              (filter (fun a => negb (specIsIPv6 a)) addrs)
              (filter specIsIPv6 addrs)]
    end
    false [].

Definition hasNoNameserver (content : string) : bool :=
  forallb (fun text => match specNameserverAddr text with
                       | Some _ => false
                       | None => true
                       end) (textLines content).

(** A line on which the keyword runs on: once trimmed it begins with the
    string [nameserver], but its first token is not the keyword alone,
    and a second token follows, as in [nameserverX 10.0.0.3]. *)
Definition keywordRunsOn (text : string) : bool :=
  let line := strings.TrimSpace text in
  strings.HasPrefix line "nameserver"
  && match strings.Fields line with
     | keyword :: _ :: _ => negb (keyword =? "nameserver")%string
     | _ => false
     end.

(** No line of the text is such a line. *)
Definition keywordsDelimited (lines : list string) : bool :=
  forallb (fun text => negb (keywordRunsOn text)) lines.

(** A line without newline. *)
Fixpoint noNewline (l : string) : bool :=
  match l with
  | EmptyString => true
  | String c l' => negb (Ascii.eqb c bufio.newline) && noNewline l'
  end.

(** ** The queries of a NetworkManager read *)

(** A line of the listing names an active connection when it has at
    least two colon-separated parts and the second one, the device, is
    not empty. *)
Definition activeConnection (line : string) : option (string * string) :=
  let parts := strings.Split line ":" in
  if (length parts <? 2)%nat then None
  else if (nth 1 parts "" =? "")%string then None
  else Some (nth 0 parts "", nth 1 parts "").

(** Outcome of the DNS query of one connection. *)
Definition QueryResult : Type := (list string * list string * option error)%type.

(** The queries that reading the listing makes, in order: for every
    active connection its device and what its query gave. *)
Fixpoint connectionQueries (h : Host) (lines : list string)
  : M (list (string * QueryResult)) :=
  match lines with
  | [] => ret []
  | line :: rest =>
      match activeConnection line with
      | None => connectionQueries h rest
      | Some (connName, device) =>
          q <- getDNSForConnection h connName ;;
          qs <- connectionQueries h rest ;;
          ret ((device, q) :: qs)
      end
  end.


Definition warningOf (q : string * QueryResult) : list string :=
  match q with
  | (device, (_, _, Some e)) => ["failed to get DNS for " ++ device ++ ": " ++ e]
  | (_, (_, _, None)) => []
  end.

Definition interfaceOf (q : string * QueryResult) : list status.InterfaceStatus :=
  match q with
  | (_, (_, _, Some _)) => []
  | (device, (ipv4, ipv6, None)) =>
      if nonEmpty ipv4 || nonEmpty ipv6 then [status.mkInterfaceStatus device ipv4 ipv6]
      else []
  end.

(* ===================================================================== *)
(** * Sample hosts                                                        *)
(* ===================================================================== *)

(** A host on which [systemctl] cannot be run at all, nothing of
    systemd-resolved is installed and /etc/resolv.conf is a plain file. *)
Definition brokenSystemctl : OS := {|
  LookPath cmd := Some "executable file not found in $PATH";
  systemctlIsActive service := Some (StartError "fork/exec /usr/bin/systemctl: permission denied");
  Stat path :=
    if (path =? "/etc/resolv.conf")%string then inl (mkFileMode true false)
    else inr "no such file or directory";
  Lstat path :=
    if (path =? "/etc/resolv.conf")%string then inl (mkFileMode true false)
    else inr "no such file or directory"
|}.

(** The probes of the test case "service check error": only [nmcli] is
    installed and every status query fails. *)
Definition serviceCheckErrorOps : SystemOps := {|
  CommandExists cmd := (cmd =? "nmcli")%string;
  ServiceRunning service := (false, Some "systemctl error");
  FileExists path := false;
  IsRegularFile path := (false, None);
  IsSymlink path := (false, None)
|}.

(** A host that is only probed. *)
Definition quietHost (ops : SystemOps) : Host := {|
  sysOps := ops;
  exec tr argv := mkExecResult "" "" None;
  openFile tr path := inr "no such file or directory"
|}.

(** A test double in the style of [mockSystemOps]. *)
Definition mockSystemOps (commands : list string) (running : list string)
    (resolvConf : option FileMode) : SystemOps := {|
  CommandExists cmd := existsb (String.eqb cmd) commands;
  ServiceRunning service := (existsb (String.eqb service) running, None);
  FileExists path :=
    match resolvConf with
    | Some _ => (path =? "/etc/resolv.conf")%string
    | None => false
    end;
  IsRegularFile path :=
    match resolvConf with Some m => (IsRegular m, None) | None => (false, None) end;
  IsSymlink path :=
    match resolvConf with Some m => (ModeSymlink m, None) | None => (false, None) end
|}.

(** A host whose [nmcli] knows a connection for every device and fails
    only when asked to reapply the device [bad]; [resolvectl] fails on
    that device too. *)
Definition hostWithBadDevice (bad : string) : Host := {|
  sysOps := mockSystemOps ["nmcli"; "resolvectl"] ["NetworkManager"] None;
  exec tr argv :=
    if (nth 1 argv "" =? "-g")%string then
      mkExecResult ("conn-" ++ nth 5 argv "" ++ nl) ("conn-" ++ nth 5 argv "" ++ nl) None
    else if ((nth 2 argv "" =? "reapply") && (nth 3 argv "" =? bad))%string
            || ((nth 0 argv "" =? "resolvectl") && (nth 2 argv "" =? bad))%string then
      mkExecResult "" ("Error: device not managed" ++ nl) (Some "exit status 1")
    else mkExecResult "" "" None;
  openFile tr path := inr "no such file or directory"
|}.

Definition configFor (iface : string) (ipv4 ipv6 : list string) : models.DNSConfig :=
  models.mkDNSConfig (models.mkNetworkInterface iface models.BackendNetworkManager)
    (models.mkDNSServer ipv4 ipv6 "").

(** A host whose /etc/resolv.conf has the given content. *)
Definition hostWithResolvConf (content : string) : Host := {|
  sysOps := mockSystemOps [] [] (Some (mkFileMode true false));
  exec tr argv := mkExecResult "" "" (Some "executable file not found in $PATH");
  openFile tr path :=
    if (path =? "/etc/resolv.conf")%string then inl content
    else inr "no such file or directory"
|}.

(** [n] times the byte [#]: a line without newline, a comment for
    resolv.conf. *)
Fixpoint filler (n : nat) : string :=
  match n with
  | O => EmptyString
  | S n' => String "#" (filler n')
  end.

(** A host whose [nmcli] prints the given listing of active connections;
    the query of connection "Wired" fails, connection "Wifi" has one
    server of each family, any other connection has none. *)
Definition hostWithConnections (listing : string) : Host := {|
  sysOps := mockSystemOps ["nmcli"] ["NetworkManager"] None;
  exec tr argv :=
    if (nth 3 argv "" =? "NAME,DEVICE")%string then mkExecResult listing listing None
    else if (nth 6 argv "" =? "Wired")%string then
      mkExecResult "" "" (Some "exit status 10")
    else if (nth 6 argv "" =? "Wifi")%string then
      mkExecResult ("IP4.DNS[1]:1.1.1.1" ++ nl ++ "IP6.DNS[1]:2606:4700:4700::1111" ++ nl)
        "" None
    else mkExecResult "" "" None;
  openFile tr path := inr "no such file or directory"
|}.

Definition sampleResolvConf : string :=
  "# Generated by hand" ++ nl ++ nl ++
  "  nameserver 1.1.1.1" ++ nl ++
  "search lan" ++ nl ++
  "nameserver 2606:4700:4700::1111 # v6" ++ nl ++
  "   # nameserver 8.8.8.8" ++ nl ++
  "nameserver 9.9.9.9" ++ String bufio.carriageReturn nl ++
  "nameserver" ++ nl.

(* ===================================================================== *)
(** * Callers of the backend: the reset and status features              *)
(* ===================================================================== *)

(** What a command leaves for the user besides its result: the lines it
    prints on standard output and the records it hands to its logger. *)
Inductive Out : Type :=
| Printed (text : string)
| DebugLog (msg : string) (attrs : list (string * string)).

(** How a Go call ends: it returns, or it panics (here only on a nil
    pointer). *)
Inductive Ended (A : Type) : Type :=
| Returns (a : A)
| Panics.
Arguments Returns {A} a.
Arguments Panics {A}.

Section ResetService.
(** [ui.Styles]: how a warning and a success message are rendered. *)
Variable RenderWarning RenderSuccess : string -> string.
Variable h : Host.

(** [func (s *Service) Reset(ctx context.Context) error] of the service
    that [reset.NewService] builds over the detector, the reader and the
    writer of the backend package. *)
Definition Reset : M (Ended (option error) * list Out) :=
  let started := [DebugLog "resetting DNS configuration to system default" []] in
  '(b, err) <- Detect h ;;
  match err with
  | Some e => ret (Returns (Some ("failed to detect DNS backend: " ++ e)), started)
  | None =>
      '(statusInfo, err) <- ReadDNSConfig h b ;;
      match err with
      | Some e =>
          ret (Returns (Some ("failed to read current configuration: " ++ e)), started)
      | None =>
          match statusInfo with
          | None => ret (Panics, started)
          | Some info =>
              let interfaces := map status.Name (status.Interfaces info) in
              if (length interfaces =? 0)%nat then
                ret (Returns None,
                     (started ++ [Printed (nl ++ RenderWarning "No active interfaces found to reset."
                                              ++ nl)])%list)
              else
                err <- ResetToAutomatic h b interfaces ;;
                match err with
                | Some e =>
                    ret (Returns (Some ("failed to reset configuration: " ++ e)), started)
                | None =>
                    ret (Returns None,
                         (started ++
                          [DebugLog "successfully reset DNS configuration" [("backend", b)];
                           Printed (nl ++ RenderSuccess
                                            "DNS configuration reset to system default (Automatic/DHCP)"
                                       ++ nl)])%list)
                end
          end
      end
  end.
End ResetService.

(** [func (s *Service) GetStatus(ctx)] of the status
    feature, over the detector and the reader that [main] provides
    ([backend.NewDetector], [backend.NewConfigReader]). *)
Definition GetStatus (h : Host) : M (option status.StatusInfo * option error * list Out) :=
  let started := [DebugLog "retrieving DNS status" []] in
  '(backend, err) <- Detect h ;;
  match err with
  | Some e => ret (None, Some ("failed to detect DNS backend: " ++ e), started)
  | None =>
      let logged := (started ++ [DebugLog "detected backend" [("backend", backend)]])%list in
      '(info, err) <- ReadDNSConfig h backend ;;
      match err with
      | Some e => ret (None, Some ("failed to read DNS configuration: " ++ e), logged)
      | None => ret (info, None, logged)
      end
  end.

(* ===================================================================== *)
(** * Vocabulary of the further properties                                *)
(* ===================================================================== *)

(** A call of one of the five [SystemOps] queries. *)
Definition isProbe (ev : Event) : bool :=
  match ev with
  | ExecEv _ | OpenEv _ => false
  | _ => true
  end.

Fixpoint eqArgv (a b : list string) : bool :=
  match a, b with
  | [], [] => true
  | x :: a', y :: b' => (x =? y)%string && eqArgv a' b'
  | _, _ => false
  end.

(** The commands that only report: the listing of the active
    connections, the DNS fields of one connection, the status of
    systemd-resolved under its two names. *)
Definition isReportCommand (argv : list string) : bool :=
  eqArgv argv nmListConnections
  || eqArgv argv (nmShowDNS (nth 6 argv ""))
  || eqArgv argv ["resolvectl"; "status"]
  || eqArgv argv ["systemd-resolve"; "--status"].

(** What a read may do to the host: query a probe, run a reporting
    command, open /etc/resolv.conf. *)
Definition isReadEvent (ev : Event) : bool :=
  match ev with
  | ExecEv argv => isReportCommand argv
  | OpenEv path => (path =? "/etc/resolv.conf")%string
  | _ => true
  end.

(** The events a computation adds all satisfy [ok]. *)
Definition appendsOnly {A} (ok : Event -> bool) (m : M A) : Prop :=
  forall tr, exists evs, snd (m tr) = (tr ++ evs)%list /\ forallb ok evs = true.




(** The name that [Link N (name)] gives, when the line is such a header. *)
Definition linkHeader (text : string) : bool :=
  let line := strings.TrimSpace text in
  strings.HasPrefix line "Link " && (3 <=? length (strings.Fields line))%nat.

(** The configs that [Apply] does something for, per backend. *)
Definition hasName (cfg : models.DNSConfig) : bool :=
  negb (models.Name (models.Interface cfg) =? "")%string.

Definition hasAddresses (cfg : models.DNSConfig) : bool :=
  nonEmpty (models.IPv4 (models.DNS cfg) ++ models.IPv6 (models.DNS cfg))%list.

(** The command of [applySystemdResolved] for one config. *)
Definition resolvectlDNS (cfg : models.DNSConfig) : list string :=
  "resolvectl" :: "dns" :: models.Name (models.Interface cfg)
    :: (models.IPv4 (models.DNS cfg) ++ models.IPv6 (models.DNS cfg))%list.

(** The commands of [applyNetworkManager] for one config once the
    connection is known. *)
Definition nmApplyCommands (connName : string) (cfg : models.DNSConfig) : list (list string) :=
  ((if nonEmpty (models.IPv4 (models.DNS cfg)) then
      [nmModify connName "ipv4.dns" (strings.Join (models.IPv4 (models.DNS cfg)) " ")
         "ipv4.ignore-auto-dns" "yes"]
    else [])
   ++ (if nonEmpty (models.IPv6 (models.DNS cfg)) then
         [nmModify connName "ipv6.dns" (strings.Join (models.IPv6 (models.DNS cfg)) " ")
            "ipv6.ignore-auto-dns" "yes"]
       else [])
   ++ [nmReapply (models.Name (models.Interface cfg))])%list.

(** The commands of [resetNetworkManager] for one interface once the
    connection is known. *)
Definition nmResetCommands (connName iface : string) : list (list string) :=
  [nmModify connName "ipv4.dns" "" "ipv4.ignore-auto-dns" "no";
   nmModify connName "ipv6.dns" "" "ipv6.ignore-auto-dns" "no";
   nmReapply iface].

(** A host on which every command succeeds. *)
Definition everyCommandSucceeds (h : Host) : Prop :=
  forall tr argv, exitErr (exec h tr argv) = None.

(** The connection that [nmcli] reports for a device at a point of the
    trace. *)
Definition connectionOf (h : Host) (tr : Trace) (iface : string) : string :=
  strings.TrimSpace (combined (exec h tr (nmShowConnection iface))).

(** The probes of steps 1 and 2 of the detection when both hand over. *)
Definition handOverProbes (h : Host) : list Event :=
  [ServiceRunningEv "NetworkManager"; CommandExistsEv "resolvectl";
   CommandExistsEv "systemd-resolve"]
  ++ (if CommandExists (sysOps h) "resolvectl" || CommandExists (sysOps h) "systemd-resolve"
      then [ServiceRunningEv "systemd-resolved"] else []).

(** The lines that the scanner delivers: those of the text before the
    first line too long for its buffer. *)
Fixpoint fittingPrefix (raw : list string) : list string :=
  match raw with
  | [] => []
  | l :: rest => if bufio.fits l then l :: fittingPrefix rest else []
  end.

Definition deliveredLines (content : string) : list string :=
  map bufio.dropCR (fittingPrefix (bufio.rawLines content)).

(** The query that the NetworkManager read makes for a line of the
    listing, when the line names an active connection. *)
Definition queryOf (line : string) : list Event :=
  match activeConnection line with
  | Some (connName, _) => [ExecEv (nmShowDNS connName)]
  | None => []
  end.

(** An address list is sorted out by family: a colon in every IPv6
    entry, none in any IPv4 entry. *)
Definition sortedByColon (i : status.InterfaceStatus) : bool :=
  forallb (fun a => strings.Contains a ":") (status.IPv6 i)
  && forallb (fun a => negb (strings.Contains a ":")) (status.IPv4 i).

(** The interface name that a [Link] header gives. *)
Definition linkName (text : string) : string :=
  strings.Trim (nth 2 (strings.Fields (strings.TrimSpace text)) "") "()".

(** Invariants of the loop of [parseSystemdResolvedOutput]: [P] holds
    of the section being read; a saved section has an address as well. *)
Definition saved (P : status.InterfaceStatus -> Prop) (i : status.InterfaceStatus) : Prop :=
  P i /\ hasDNS i = true.

Definition holdsOfCurrent (P : status.InterfaceStatus -> Prop)
    (currentInterface : option status.InterfaceStatus) : Prop :=
  match currentInterface with
  | Some cur => P cur
  | None => True
  end.

(** A line that starts with [Link ] closes the section being read. *)
Definition startsLink (text : string) : bool :=
  strings.HasPrefix (strings.TrimSpace text) "Link ".

Definition pending (currentInterface : option status.InterfaceStatus) : nat :=
  match currentInterface with Some _ => 1 | None => 0 end.

(** What [Reset] and [GetStatus] log and print. *)
Definition resetStarted : list Out :=
  [DebugLog "resetting DNS configuration to system default" []].

Definition resetWarned (RenderWarning : string -> string) : list Out :=
  (resetStarted
   ++ [Printed (nl ++ RenderWarning "No active interfaces found to reset." ++ nl)])%list.

Definition resetSucceeded (RenderSuccess : string -> string) (b : models.Backend) : list Out :=
  (resetStarted
   ++ [DebugLog "successfully reset DNS configuration" [("backend", b)];
       Printed (nl ++ RenderSuccess "DNS configuration reset to system default (Automatic/DHCP)"
                   ++ nl)])%list.

Definition statusStarted : list Out := [DebugLog "retrieving DNS status" []].

Definition statusDetected (b : models.Backend) : list Out :=
  (statusStarted ++ [DebugLog "detected backend" [("backend", b)]])%list.

Definition supported (b : models.Backend) : Prop :=
  b = models.BackendNetworkManager \/ b = models.BackendSystemdResolved
  \/ b = models.BackendResolvConf.

(** The probes of step 3 of the detection on a plain file. *)
Definition resolvConfProbes : list Event :=
  [FileExistsEv "/etc/resolv.conf"; IsSymlinkEv "/etc/resolv.conf";
   IsRegularFileEv "/etc/resolv.conf"].

(** A host whose [systemctl] can never be run. *)
Definition systemctlUnusable (os : OS) : Prop :=
  forall service, exists msg, systemctlIsActive os service = Some (StartError msg).

(* ===================================================================== *)
(** * Further sample hosts                                                *)
(* ===================================================================== *)

(** A host on which every command succeeds and prints the same text. *)
Definition obligingHost (ops : SystemOps) (text : string) : Host := {|
  sysOps := ops;
  exec tr argv := mkExecResult text text None;
  openFile tr path := inr "no such file or directory"
|}.

(** A host without NetworkManager and systemd-resolved whose
    /etc/resolv.conf is a plain file with the given content. *)
Definition plainResolvConfHost (content : string) : Host := {|
  sysOps := mockSystemOps [] [] (Some (mkFileMode true false));
  exec tr argv := mkExecResult "" "" (Some "executable file not found in $PATH");
  openFile tr path :=
    if (path =? "/etc/resolv.conf")%string then inl content
    else inr "no such file or directory"
|}.

(** A system without NetworkManager and systemd-resolved whose
    /etc/resolv.conf is a symbolic link to a file that does not exist. *)
Definition danglingResolvConf : OS := {|
  LookPath cmd := Some "executable file not found in $PATH";
  systemctlIsActive service := Some (ExitError "exit status 3");
  Stat path := inr "no such file or directory";
  Lstat path :=
    if (path =? "/etc/resolv.conf")%string then inl (mkFileMode false true)
    else inr "no such file or directory"
|}.

(* ===================================================================== *)
(** * The library functions on examples                                   *)
(* ===================================================================== *)

Example Split_ex :
  strings.Split "Wired connection 1:eth0:x" ":" = ["Wired connection 1"; "eth0"; "x"]
  /\ strings.Split "" ":" = [""] /\ strings.Split "a:" ":" = ["a"; ""]
  /\ strings.SplitN "IP4.DNS[1]:2001:db8::1" ":" 2 = ["IP4.DNS[1]"; "2001:db8::1"].
Proof. repeat split; reflexivity. Qed.

Example TrimSpace_ex :
  strings.TrimSpace ("  nameserver 1.1.1.1 " ++ nl) = "nameserver 1.1.1.1"
  /\ strings.TrimSpace "   " = "" /\ strings.TrimSpace "a  b" = "a  b".
Proof. repeat split; reflexivity. Qed.

Example Fields_ex :
  strings.Fields "  nameserver   8.8.8.8  # primary" = ["nameserver"; "8.8.8.8"; "#"; "primary"]
  /\ strings.Fields "   " = [] /\ strings.Trim "(eth0)" "()" = "eth0".
Proof. repeat split; reflexivity. Qed.

Example Scan_ex :
  bufio.Scan ("a" ++ nl ++ nl ++ "b") = (["a"; ""; "b"], None)
  /\ bufio.Scan ("a" ++ nl) = (["a"], None) /\ bufio.Scan "" = ([], None).
Proof. repeat split; reflexivity. Qed.

Example TrimSpace_unicode_ex :
  let b n := String (ascii_of_nat n) "" in
  strings.TrimSpace (b 194 ++ b 160 ++ " a b " ++ b 226 ++ b 128 ++ b 131) = "a b"
  /\ strings.TrimSpace (b 194 ++ " a") = b 194 ++ " a"
  /\ strings.Fields ("a" ++ b 194 ++ b 133 ++ "b" ++ b 227 ++ b 128 ++ b 128 ++ "c")
     = ["a"; "b"; "c"].
Proof. repeat split; reflexivity. Qed.

Example parseSystemdResolvedOutput_ex :
  parseSystemdResolvedOutput
    ("Global" ++ nl ++ "Link 2 (eth0)" ++ nl ++
     "Current DNS Server: 192.168.1.1" ++ nl ++
     "       DNS Servers: 2001:db8::1" ++ nl ++
     "Link 3 (wlan0)" ++ nl ++ "  DNS Servers: 8.8.8.8" ++ nl ++ " - 1.1.1.1" ++ nl ++
     "Link 4 (docker0)" ++ nl)
  = [status.mkInterfaceStatus "eth0" ["192.168.1.1"] ["2001:db8::1"];
     status.mkInterfaceStatus "wlan0" ["8.8.8.8"; "1.1.1.1"] []].
Proof. reflexivity. Qed.

(** ** The fuel of the string functions is enough *)

Lemma length_drop (n : nat) (s : string) :
  String.length (strings.drop n s) = String.length s - n.
Proof.
  revert s. induction n as [|n IH]; intros [|c s']; cbn; auto.
Qed.

Lemma length_zero (s : string) : String.length s = 0 -> s = "".
Proof. now destruct s. Qed.

(** Trimming at the left leaves no white space in front. *)
Lemma trimLeftFuel_done (fuel : nat) (s : string) :
  String.length s <= fuel ->
  strings.spaceRuneLen (strings.trimLeftFuel fuel s) = 0.
Proof.
  revert s. induction fuel as [|fuel IH]; intros s Hlen.
  - apply Nat.le_0_r, length_zero in Hlen. now subst s.
  - cbn [strings.trimLeftFuel].
    destruct (strings.spaceRuneLen s) as [|k] eqn:Hk; [exact Hk |].
    apply IH. rewrite length_drop.
    destruct s as [|c s]; [discriminate Hk | cbn in *; lia].
Qed.

Lemma trimLeftSpace_done (s : string) :
  strings.spaceRuneLen (strings.trimLeftSpace s) = 0.
Proof. now apply trimLeftFuel_done. Qed.

Lemma length_trimLeftFuel (fuel : nat) (s : string) :
  String.length (strings.trimLeftFuel fuel s) <= String.length s.
Proof.
  revert s. induction fuel as [|fuel IH]; intros s; cbn [strings.trimLeftFuel]; [lia |].
  destruct (strings.spaceRuneLen s); [lia |].
  etransitivity; [apply IH |]. rewrite length_drop. lia.
Qed.

Lemma prefix_nonempty (sep s : string) :
  sep <> "" -> String.prefix sep s = true -> 1 <= String.length sep <= String.length s.
Proof.
  intros Hsep Hpre. apply String.prefix_correct in Hpre.
  assert (Hlen : String.length (substring 0 (String.length sep) s) <= String.length s).
  { generalize (String.length sep). clear. induction s as [|c s IH]; intros [|n]; cbn; try lia.
    specialize (IH n). lia. }
  rewrite Hpre in Hlen. destruct sep; [contradiction | cbn in *; lia].
Qed.

Lemma cut_shorter (sep s before after : string) :
  sep <> "" -> strings.cut sep s = Some (before, after) ->
  String.length after < String.length s.
Proof.
  intros Hsep. revert before. induction s as [|c s IH]; intros before; cbn [strings.cut].
  - destruct (String.prefix sep "") eqn:Hpre; [| discriminate].
    apply (prefix_nonempty _ _ Hsep) in Hpre. cbn in Hpre. lia.
  - destruct (String.prefix sep (String c s)) eqn:Hpre.
    + intros [= <- <-]. rewrite length_drop.
      apply (prefix_nonempty _ _ Hsep) in Hpre. lia.
    + destruct (strings.cut sep s) as [[b a]|]; [| discriminate].
      intros [= <- <-]. specialize (IH b eq_refl). cbn. lia.
Qed.

(** Splitting never stops for lack of fuel: any fuel from the length of
    the text on gives the same pieces. *)
Lemma splitFuel_enough (sep : string) (fuel1 fuel2 : nat) (s : string) :
  sep <> "" -> String.length s <= fuel1 -> String.length s <= fuel2 ->
  strings.splitFuel fuel1 sep s = strings.splitFuel fuel2 sep s.
Proof.
  intros Hsep. revert fuel2 s.
  assert (Hempty : forall fuel, strings.splitFuel fuel sep "" = [""]).
  { intros [|fuel]; [reflexivity |]. cbn [strings.splitFuel strings.cut].
    destruct (String.prefix sep "") eqn:Hpre; [| reflexivity].
    apply (prefix_nonempty _ _ Hsep) in Hpre. cbn in Hpre. lia. }
  induction fuel1 as [|fuel1 IH]; intros fuel2 s H1 H2.
  - apply Nat.le_0_r, length_zero in H1. subst s. now rewrite !Hempty.
  - destruct fuel2 as [|fuel2].
    + apply Nat.le_0_r, length_zero in H2. subst s. now rewrite !Hempty.
    + cbn [strings.splitFuel].
      destruct (strings.cut sep s) as [[before after]|] eqn:Hcut; [| reflexivity].
      apply (cut_shorter _ _ _ _ Hsep) in Hcut.
      f_equal. apply IH; lia.
Qed.

Lemma length_spanWord (s : string) :
  String.length (snd (strings.spanWord s)) <= String.length s
  /\ (s <> "" -> strings.spaceRuneLen s = 0 ->
      String.length (snd (strings.spanWord s)) < String.length s).
Proof.
  induction s as [|c s [IH _]]; [split; [cbn; lia | congruence] |].
  cbn [strings.spanWord].
  destruct (strings.spaceRuneLen (String c s)) eqn:Hk.
  - destruct (strings.spanWord s) as [w rest]. cbn in *. split; intros; lia.
  - split; [cbn; lia | discriminate].
Qed.

(** Cutting into fields never stops for lack of fuel either. *)
Lemma fieldsFuel_enough (fuel1 fuel2 : nat) (s : string) :
  String.length s <= fuel1 -> String.length s <= fuel2 ->
  strings.fieldsFuel fuel1 s = strings.fieldsFuel fuel2 s.
Proof.
  assert (Hempty : forall fuel t, String.length t = 0 -> strings.fieldsFuel fuel t = []).
  { intros [|fuel] t Ht; [reflexivity |]. apply length_zero in Ht. now subst t. }
  revert fuel2 s. induction fuel1 as [|fuel1 IH]; intros fuel2 s H1 H2.
  - rewrite !Hempty by lia. reflexivity.
  - destruct fuel2 as [|fuel2]; [rewrite !Hempty by lia; reflexivity |].
    cbn [strings.fieldsFuel].
    pose proof (trimLeftSpace_done s) as Hdone.
    pose proof (length_trimLeftFuel (String.length s) s) as Hshort.
    fold (strings.trimLeftSpace s) in Hshort.
    destruct (strings.trimLeftSpace s) as [|c s1] eqn:Htrim; [reflexivity |].
    pose proof (proj2 (length_spanWord (String c s1)) ltac:(discriminate) Hdone) as Hrest.
    destruct (strings.spanWord (String c s1)) as [w rest]. cbn [snd] in Hrest.
    f_equal. apply IH; lia.
Qed.

(* ===================================================================== *)
(** * Properties of the detector                                          *)
(* ===================================================================== *)

Ltac run_probe :=
  unfold bind, ret, emit, probe.ServiceRunning, probe.CommandExists,
    probe.FileExists, probe.IsSymlink, probe.IsRegularFile; simpl.

Lemma DetectWithReason_nm_not_running (h : Host) (tr : Trace) :
  fst (ServiceRunning (sysOps h) "NetworkManager") = false ->
  DetectWithReason h tr
  = detectSystemdResolved h (tr ++ [ServiceRunningEv "NetworkManager"])%list.
Proof.
  intros Hnm. unfold DetectWithReason. run_probe.
  destruct (ServiceRunning (sysOps h) "NetworkManager") as [running err].
  simpl in Hnm. subst running. reflexivity.
Qed.


Lemma detectResolvConf_never_symlink (h : Host) (tr : Trace) :
  FileExists (sysOps h) "/etc/resolv.conf" = true ->
  fst (IsSymlink (sysOps h) "/etc/resolv.conf") = true ->
  exists e reason tr',
    detectResolvConf h tr = (("", reason, Some e), tr').
Proof.
  intros Hfile Hsym. unfold detectResolvConf. run_probe. rewrite Hfile.
  destruct (IsSymlink (sysOps h) "/etc/resolv.conf") as [b [e|]];
    simpl in Hsym; subst b; eauto.
Qed.

(** Whatever the first two steps find, a symlinked /etc/resolv.conf is
    never selected as the resolv.conf backend. *)
Lemma Detect_symlink_never_resolvconf (h : Host) (tr : Trace) :
  FileExists (sysOps h) "/etc/resolv.conf" = true ->
  fst (IsSymlink (sysOps h) "/etc/resolv.conf") = true ->
  fst (fst (Detect h tr)) <> models.BackendResolvConf.
Proof.
  intros Hfile Hsym.
  assert (Hstep3 : forall tr0,
             fst (fst (fst (detectResolvConf h tr0))) <> models.BackendResolvConf).
  { intros tr0.
    destruct (detectResolvConf_never_symlink h tr0 Hfile Hsym) as (e & reason & tr' & ->).
    discriminate. }
  assert (H : fst (fst (fst (DetectWithReason h tr))) <> models.BackendResolvConf).
  { unfold DetectWithReason, detectSystemdResolved. run_probe.
    destruct (ServiceRunning (sysOps h) "NetworkManager") as [[|] errNM]; cbn [fst].
    - destruct (CommandExists (sysOps h) "nmcli"); discriminate.
    - destruct (CommandExists (sysOps h) "resolvectl" || CommandExists (sysOps h) "systemd-resolve");
        [| apply Hstep3].
      destruct (ServiceRunning (sysOps h) "systemd-resolved") as [[|] [e|]];
        try discriminate. apply Hstep3. }
  unfold Detect, bind. destruct (DetectWithReason h tr) as [[[backend reason] err] tr'].
  exact H.
Qed.

(** C1. Whenever the NetworkManager service is reported running and
    [nmcli] is installed, [DetectWithReason] returns the NetworkManager
    backend with the reason "nmcli command available and NetworkManager
    service is running" and no error, and [Detect] returns the same
    backend and no error; the only probes made are the two of step 1, so
    nothing about systemd-resolved or /etc/resolv.conf is consulted. *)
Theorem detect_networkmanager_wins (h : Host) (tr : Trace)
    (Hrunning : fst (ServiceRunning (sysOps h) "NetworkManager") = true)
    (Hnmcli : CommandExists (sysOps h) "nmcli" = true) :
  let probes := [ServiceRunningEv "NetworkManager"; CommandExistsEv "nmcli"] in
  DetectWithReason h tr
  = ((models.BackendNetworkManager,
      "nmcli command available and NetworkManager service is running",
      None), (tr ++ probes)%list)
  /\ Detect h tr = ((models.BackendNetworkManager, None), (tr ++ probes)%list).
Proof.
  assert (H : DetectWithReason h tr
    = ((models.BackendNetworkManager,
        "nmcli command available and NetworkManager service is running",
        None),
       (tr ++ [ServiceRunningEv "NetworkManager"; CommandExistsEv "nmcli"])%list)).
  { unfold DetectWithReason. run_probe.
    destruct (ServiceRunning (sysOps h) "NetworkManager") as [running err].
    simpl in Hrunning. subst running. rewrite Hnmcli.
    now rewrite <- app_assoc. }
  split; [exact H |].
  unfold Detect, bind. now rewrite H.
Qed.

Lemma detect_networkmanager_wins_witness :
  let h := quietHost (mockSystemOps ["nmcli"; "resolvectl"]
                        ["NetworkManager"; "systemd-resolved"]
                        (Some (mkFileMode true false))) in
  Detect h [] = ((models.BackendNetworkManager, None),
                 [ServiceRunningEv "NetworkManager"; CommandExistsEv "nmcli"]).
Proof.
  intros h.
  exact (proj2 (detect_networkmanager_wins h [] eq_refl eq_refl)).
Defined.

(** C2, evaluated on the code.  When the status query for NetworkManager
    itself fails, [DetectWithReason] drops the error: on a host where
    [systemctl] cannot be run and /etc/resolv.conf is a plain file,
    detection goes on through the systemd-resolved and resolv.conf steps
    and selects the resolv.conf backend without any error. *)
Theorem detect_drops_networkmanager_query_error :
  let h := quietHost (DefaultSystemOps brokenSystemctl) in
  ServiceRunning (sysOps h) "NetworkManager"
  = (false, Some "failed to check service status: fork/exec /usr/bin/systemctl: permission denied")
  /\ DetectWithReason h []
     = ((models.BackendResolvConf,
         "/etc/resolv.conf exists and is a regular file (not managed by a service)",
         None),
        [ServiceRunningEv "NetworkManager"; CommandExistsEv "resolvectl";
         CommandExistsEv "systemd-resolve"; FileExistsEv "/etc/resolv.conf";
         IsSymlinkEv "/etc/resolv.conf"; IsRegularFileEv "/etc/resolv.conf"])
  /\ Detect h [] = ((models.BackendResolvConf, None), snd (DetectWithReason h [])).
Proof. repeat split. Qed.

(** On the probes of the test case "service check error" the error that
    comes back is the one of the last step, not the failed query. *)
Example detect_service_check_error_test :
  DetectWithReason (quietHost serviceCheckErrorOps) []
  = (("", "no supported DNS backend found", Some "no supported DNS backend found"),
     [ServiceRunningEv "NetworkManager"; CommandExistsEv "resolvectl";
      CommandExistsEv "systemd-resolve"; FileExistsEv "/etc/resolv.conf"]).
Proof. reflexivity. Qed.

(** The same on every host: whatever error comes with the answer about
    NetworkManager, detection continues with step 2. *)
Lemma detect_ignores_networkmanager_query_error (h : Host) (tr : Trace) (e : error) :
  ServiceRunning (sysOps h) "NetworkManager" = (false, Some e) ->
  DetectWithReason h tr
  = detectSystemdResolved h (tr ++ [ServiceRunningEv "NetworkManager"])%list.
Proof.
  intros H. apply DetectWithReason_nm_not_running. now rewrite H.
Qed.

(** C3. Whenever the NetworkManager service is reported running and
    [nmcli] is not installed, [DetectWithReason] stops after the two
    probes of step 1 and returns the zero backend, an empty reason and
    an error whose message gives the install command for Debian/Ubuntu,
    Fedora/RHEL and Arch Linux; [Detect] returns the same error. *)
Theorem detect_nmcli_missing_is_fatal (h : Host) (tr : Trace)
    (Hrunning : fst (ServiceRunning (sysOps h) "NetworkManager") = true)
    (Hnmcli : CommandExists (sysOps h) "nmcli" = false) :
  let probes := [ServiceRunningEv "NetworkManager"; CommandExistsEv "nmcli"] in
  DetectWithReason h tr = (("", "", Some nmcliMissing), (tr ++ probes)%list)
  /\ Detect h tr = (("", Some nmcliMissing), (tr ++ probes)%list)
  /\ strings.Contains nmcliMissing "Debian/Ubuntu: sudo apt install network-manager" = true
  /\ strings.Contains nmcliMissing "Fedora/RHEL: sudo dnf install NetworkManager" = true
  /\ strings.Contains nmcliMissing "Arch Linux: sudo pacman -S networkmanager" = true.
Proof.
  assert (H : DetectWithReason h tr
    = (("", "", Some nmcliMissing),
       (tr ++ [ServiceRunningEv "NetworkManager"; CommandExistsEv "nmcli"])%list)).
  { unfold DetectWithReason. run_probe.
    destruct (ServiceRunning (sysOps h) "NetworkManager") as [running err].
    simpl in Hrunning. subst running. rewrite Hnmcli.
    now rewrite <- app_assoc. }
  split; [exact H |].
  split; [unfold Detect, bind; now rewrite H |].
  repeat split; vm_compute; reflexivity.
Qed.

Lemma detect_nmcli_missing_is_fatal_witness :
  let h := quietHost (mockSystemOps ["resolvectl"]
                        ["NetworkManager"; "systemd-resolved"]
                        (Some (mkFileMode true false))) in
  DetectWithReason h []
  = (("", "", Some nmcliMissing),
     [ServiceRunningEv "NetworkManager"; CommandExistsEv "nmcli"]).
Proof.
  intros h.
  exact (proj1 (detect_nmcli_missing_is_fatal h [] eq_refl eq_refl)).
Defined.




(* ===================================================================== *)
(** * Properties of the writer                                            *)
(* ===================================================================== *)

Lemma appends_ret {A} (a : A) : appends (ret a).
Proof. intros tr. exists []. simpl. now rewrite app_nil_r. Qed.

Lemma appends_bind {A B} (m : M A) (k : A -> M B) :
  appends m -> (forall a, appends (k a)) -> appends (bind m k).
Proof.
  intros Hm Hk tr. unfold bind.
  destruct (Hm tr) as [evs1 H1]. destruct (m tr) as [a tr1]. simpl in H1. subst tr1.
  destruct (Hk a (tr ++ evs1)%list) as [evs2 H2].
  exists (evs1 ++ evs2)%list. now rewrite H2, app_assoc.
Qed.

Lemma appends_CombinedOutput (h : Host) (argv : list string) :
  appends (CombinedOutput h argv).
Proof. intros tr. now exists [ExecEv argv]. Qed.

Lemma appends_thenDo (m k : M (option error)) :
  appends m -> appends k -> appends (thenDo m k).
Proof.
  intros Hm Hk. apply appends_bind; [exact Hm |].
  intros [e|]; [apply appends_ret | exact Hk].
Qed.

Lemma appends_forRange {A} (body : A -> M (option error)) (xs : list A) :
  (forall x, appends (body x)) -> appends (forRange body xs).
Proof.
  intros Hbody. induction xs as [|x rest IH]; simpl.
  - apply appends_ret.
  - apply appends_thenDo; [apply Hbody | exact IH].
Qed.

Ltac appends_step :=
  match goal with
  | |- appends (ret _) => apply appends_ret
  | |- appends (CombinedOutput _ _) => apply appends_CombinedOutput
  | |- appends (thenDo _ _) => apply appends_thenDo
  | |- appends (bind _ _) => apply appends_bind
  | |- forall _, _ => intro
  | |- appends (let (_, _) := ?p in _) => destruct p
  | |- appends (match ?o with Some _ => _ | None => _ end) => destruct o
  | |- appends (if ?b then _ else _) => destruct b
  end.

Lemma appends_getNMConnection (h : Host) (iface : string) :
  appends (getNMConnection h iface).
Proof. unfold getNMConnection. repeat appends_step. Qed.


Lemma appends_ResetToAutomatic (h : Host) (backend : models.Backend) (interfaces : list string) :
  appends (ResetToAutomatic h backend interfaces).
Proof.
  unfold ResetToAutomatic, resetNetworkManager, resetSystemdResolved.
  repeat appends_step; try apply appends_forRange; intros iface.
  - unfold resetNetworkManagerBody.
    repeat first [apply appends_getNMConnection | appends_step].
  - unfold resetSystemdResolvedBody. repeat appends_step.
Qed.


(** After targets that went through, the loop goes on with the rest from
    the trace they left. *)
Lemma forRange_continue {A} (body : A -> M (option error))
    (done rest : list A) (tr tr1 : Trace) :
  forRange body done tr = (None, tr1) ->
  forRange body (done ++ rest)%list tr = forRange body rest tr1.
Proof.
  revert tr. induction done as [|d done IH]; intros tr Hdone; simpl in *.
  - unfold ret in Hdone. now injection Hdone as <-.
  - unfold thenDo, bind in *. destruct (body d tr) as [[e'|] tr'].
    + discriminate Hdone.
    + now apply IH.
Qed.



(** C8. A backend that an operation does not support is a hard error
    and nothing is done to the host (the trace is unchanged):
    [ReadDNSConfig] on anything but NetworkManager, systemd-resolved and
    resolv.conf, [Apply] and [ResetToAutomatic] on anything but
    NetworkManager and systemd-resolved; in particular reading on
    netplan and writing or resetting on resolv.conf and netplan. *)
Theorem unsupported_backend_is_hard_error (h : Host) (backend : models.Backend) (tr : Trace)
    (Hnm : backend <> models.BackendNetworkManager)
    (Hresolved : backend <> models.BackendSystemdResolved) :
  (backend <> models.BackendResolvConf ->
   ReadDNSConfig h backend tr = ((None, Some ("unsupported backend: " ++ backend)), tr))
  /\ (forall configs,
        Apply h backend configs tr
        = (Some ("unsupported backend for writing: " ++ backend), tr))
  /\ (forall interfaces,
        ResetToAutomatic h backend interfaces tr
        = (Some ("unsupported backend for reset: " ++ backend), tr))
  /\ ReadDNSConfig h models.BackendNetplan tr
     = ((None, Some "unsupported backend: netplan"), tr)
  /\ (forall configs,
        Apply h models.BackendResolvConf configs tr
        = (Some "unsupported backend for writing: resolv.conf", tr)
        /\ Apply h models.BackendNetplan configs tr
           = (Some "unsupported backend for writing: netplan", tr))
  /\ (forall interfaces,
        ResetToAutomatic h models.BackendResolvConf interfaces tr
        = (Some "unsupported backend for reset: resolv.conf", tr)
        /\ ResetToAutomatic h models.BackendNetplan interfaces tr
           = (Some "unsupported backend for reset: netplan", tr)).
Proof.
  apply String.eqb_neq in Hnm, Hresolved.
  unfold ReadDNSConfig, Apply, ResetToAutomatic.
  rewrite Hnm, Hresolved.
  repeat split.
  intros Hconf. apply String.eqb_neq in Hconf. now rewrite Hconf.
Qed.

Lemma unsupported_backend_is_hard_error_witness :
  let h := hostWithBadDevice "wlan0" in
  ReadDNSConfig h models.BackendNetplan []
  = ((None, Some "unsupported backend: netplan"), [])
  /\ Apply h models.BackendNetplan [configFor "eth0" ["1.1.1.1"] []] []
     = (Some "unsupported backend for writing: netplan", [])
  /\ ResetToAutomatic h models.BackendNetplan ["eth0"] []
     = (Some "unsupported backend for reset: netplan", []).
Proof.
  intros h.
  pose proof (unsupported_backend_is_hard_error h models.BackendNetplan []
                ltac:(discriminate) ltac:(discriminate)) as (Hread & Happly & Hreset & _).
  split; [apply Hread; discriminate |].
  split; [apply Happly | apply Hreset].
Defined.



(* ===================================================================== *)
(** * Properties of the reader                                            *)
(* ===================================================================== *)

Lemma ReadDNSConfig_networkmanager (h : Host) :
  ReadDNSConfig h models.BackendNetworkManager = readNetworkManager h.
Proof. reflexivity. Qed.

Lemma ReadDNSConfig_resolvconf (h : Host) :
  ReadDNSConfig h models.BackendResolvConf = readResolvConf h.
Proof. reflexivity. Qed.

(** ** The scanner *)

Lemma scanTokens_fits (raw : list string) :
  forallb bufio.fits raw = true ->
  bufio.scanTokens raw = (map bufio.dropCR raw, None).
Proof.
  induction raw as [|l rest IH]; simpl; [reflexivity |].
  intros H. apply andb_prop in H as [Hl Hrest].
  now rewrite Hl, (IH Hrest).
Qed.

Lemma Scan_fits (content : string) :
  linesFit content = true ->
  bufio.Scan content = (textLines content, None).
Proof. apply scanTokens_fits. Qed.

Lemma length_filler (n : nat) : String.length (filler n) = n.
Proof. induction n; simpl; congruence. Qed.

Lemma rawLines_filler (n : nat) :
  bufio.rawLines (filler (S n)) = [filler (S n)].
Proof.
  induction n as [|n IH]; [reflexivity |].
  change (filler (S (S n))) with (String "#" (filler (S n))).
  cbn [bufio.rawLines]. rewrite IH. reflexivity.
Qed.

Lemma fits_filler (n : nat) :
  (bufio.MaxScanTokenSize <= Z.of_nat n)%Z -> bufio.fits (filler n) = false.
Proof.
  intros H. unfold bufio.fits. rewrite length_filler.
  apply Z.ltb_ge. exact H.
Qed.

Lemma nl_append (s : string) : nl ++ s = String bufio.newline s.
Proof. reflexivity. Qed.

Lemma rawLines_first_line (l rest : string) :
  noNewline l = true ->
  bufio.rawLines (l ++ String bufio.newline rest) = l :: bufio.rawLines rest.
Proof.
  induction l as [|c l IH]; intros H.
  - reflexivity.
  - cbn [noNewline] in H. apply andb_prop in H as [Hc Hl].
    cbn [append bufio.rawLines].
    destruct (Ascii.eqb c bufio.newline); [discriminate |].
    now rewrite (IH Hl).
Qed.

(** A trimmed text has no white space in front, so its first field is
    what it starts with. *)
Lemma spaceRuneLen_trimRightSpace (s : string) :
  strings.spaceRuneLen s = 0 -> strings.spaceRuneLen (strings.trimRightSpace s) = 0.
Proof.
  destruct s as [|a s1]; [reflexivity |].
  cbn [strings.trimRightSpace]. destruct (strings.allSpace (String a s1)); [reflexivity |].
  unfold strings.spaceRuneLen. destruct (strings.isASCIISpace (N_of_ascii a)); [discriminate |].
  destruct s1 as [|b s2]; [reflexivity |].
  cbn [strings.trimRightSpace]. destruct (strings.allSpace (String b s2)); [reflexivity |].
  destruct (strings.isSpace2 (N_of_ascii a) (N_of_ascii b)); [discriminate |].
  destruct s2 as [|c s3]; [reflexivity |].
  cbn [strings.trimRightSpace]. destruct (strings.allSpace (String c s3)); [reflexivity |].
  trivial.
Qed.

Lemma spaceRuneLen_TrimSpace (s : string) :
  strings.spaceRuneLen (strings.TrimSpace s) = 0.
Proof. apply spaceRuneLen_trimRightSpace, trimLeftSpace_done. Qed.

Lemma trimLeftSpace_id (s : string) :
  strings.spaceRuneLen s = 0 -> strings.trimLeftSpace s = s.
Proof.
  intros H. unfold strings.trimLeftSpace.
  destruct s as [|c s]; [reflexivity |].
  cbn [String.length strings.trimLeftFuel]. now rewrite H.
Qed.

Lemma spanWord_prefix (s : string) :
  String.prefix (fst (strings.spanWord s)) s = true.
Proof.
  induction s as [|c s IH]; [reflexivity |].
  cbn [strings.spanWord]. destruct (strings.spaceRuneLen (String c s)); [| reflexivity].
  destruct (strings.spanWord s) as [w rest]. cbn [fst String.prefix] in *.
  destruct (ascii_dec c c); [exact IH | contradiction].
Qed.

Lemma Fields_first_is_prefix (s f0 : string) (fs : list string) :
  strings.spaceRuneLen s = 0 ->
  strings.Fields s = f0 :: fs -> strings.HasPrefix s f0 = true.
Proof.
  intros Hfront. unfold strings.Fields, strings.HasPrefix.
  destruct s as [|c s]; [discriminate |].
  cbn [String.length strings.fieldsFuel]. rewrite (trimLeftSpace_id _ Hfront).
  pose proof (spanWord_prefix (String c s)) as Hpre.
  destruct (strings.spanWord (String c s)) as [w rest]. cbn [fst] in Hpre.
  now intros [= <- _].
Qed.

(** ** The resolv.conf loop against the specification *)

(** Where no keyword runs on, the loop takes from a line what the
    specification calls the address of a directive. *)
Lemma resolvConfLoop_spec (lines ipv4 ipv6 : list string) :
  keywordsDelimited lines = true ->
  resolvConfLoop lines ipv4 ipv6
  = ((ipv4 ++ filter (fun a => negb (specIsIPv6 a)) (specAddresses lines))%list,
     (ipv6 ++ filter specIsIPv6 (specAddresses lines))%list).
Proof.
  revert ipv4 ipv6. induction lines as [|text rest IH]; intros ipv4 ipv6 Hlines.
  - simpl. now rewrite !app_nil_r.
  - cbn [keywordsDelimited forallb] in Hlines. apply andb_prop in Hlines as [Htext Hrest].
    fold (keywordsDelimited rest) in Hrest. apply negb_true_iff in Htext.
    cbn [resolvConfLoop specAddresses flat_map].
    fold (specAddresses rest).
    unfold specNameserverAddr, specIgnoredLine, keywordRunsOn in *.
    pose proof (Fields_first_is_prefix (strings.TrimSpace text)) as Hfirst.
    specialize (fun f0 fs => Hfirst f0 fs (spaceRuneLen_TrimSpace text)).
    set (line := strings.TrimSpace text) in *.
    rewrite (orb_comm (line =? "")%string).
    destruct (strings.HasPrefix line "#" || (line =? "")%string); [now apply IH |].
    destruct (strings.Fields line) as [|f0 [|addr fs]] eqn:Hfields.
    + destruct (strings.HasPrefix line "nameserver"); now apply IH.
    + destruct (strings.HasPrefix line "nameserver"); now apply IH.
    + specialize (Hfirst f0 (addr :: fs) eq_refl).
      destruct (f0 =? "nameserver")%string eqn:Hkeyword.
      * apply String.eqb_eq in Hkeyword. subst f0. rewrite Hfirst.
        cbn [length Nat.leb nth app filter]. unfold addAddr, specIsIPv6.
        destruct (strings.Contains addr ":"); cbn [negb];
          rewrite (IH _ _ Hrest), <- app_assoc; reflexivity.
      * cbn [negb] in Htext. rewrite andb_true_r in Htext. rewrite Htext.
        now apply IH.
Qed.

Lemma nonEmpty_partition {A} (p : A -> bool) (l : list A) :
  nonEmpty (filter (fun a => negb (p a)) l) || nonEmpty (filter p l)
  = match l with [] => false | _ => true end.
Proof.
  destruct l as [|a l]; [reflexivity |].
  cbn [filter]. destruct (p a); cbn [negb].
  - apply orb_true_r.
  - reflexivity.
Qed.

Lemma readResolvConf_spec (h : Host) (tr : Trace) (content : string) :
  openFile h tr "/etc/resolv.conf" = inl content ->
  linesFit content = true ->
  keywordsDelimited (textLines content) = true ->
  readResolvConf h tr
  = ((Some (specResolvConfStatus (textLines content)), None),
     (tr ++ [OpenEv "/etc/resolv.conf"])%list).
Proof.
  intros Hopen Hfit Hkeywords. unfold readResolvConf, bind, Open, ret.
  rewrite Hopen, (Scan_fits _ Hfit), (resolvConfLoop_spec _ _ _ Hkeywords).
  cbn [app]. rewrite nonEmpty_partition.
  unfold specResolvConfStatus, appendInterface.
  destruct (specAddresses (textLines content)); reflexivity.
Qed.

Lemma readResolvConf_too_long (h : Host) (tr : Trace) (before : list string)
    (content : string) :
  bufio.Scan content = (before, Some bufio.ErrTooLong) ->
  openFile h tr "/etc/resolv.conf" = inl content ->
  readResolvConf h tr
  = ((None, Some ("error reading /etc/resolv.conf: " ++ bufio.ErrTooLong)),
     (tr ++ [OpenEv "/etc/resolv.conf"])%list).
Proof.
  intros Hscan Hopen. unfold readResolvConf, bind, Open, ret.
  rewrite Hopen, Hscan. now destruct (resolvConfLoop before [] []).
Qed.

(** ** The NetworkManager loop, connection by connection *)

Lemma activeConnectionsLoop_spec (h : Host) (lines : list string)
    (info : status.StatusInfo) (tr : Trace) :
  activeConnectionsLoop h lines info tr
  = (status.mkStatusInfo (status.Backend info)
       (status.Interfaces info ++ flat_map interfaceOf (fst (connectionQueries h lines tr)))%list
       (status.Managed info)
       (status.Warnings info ++ flat_map warningOf (fst (connectionQueries h lines tr)))%list,
     snd (connectionQueries h lines tr)).
Proof.
  revert info tr. induction lines as [|line rest IH]; intros info tr.
  - destruct info. cbn. now rewrite !app_nil_r.
  - cbn [activeConnectionsLoop connectionQueries]. unfold activeConnection.
    destruct (length (strings.Split line ":") <? 2)%nat; [apply IH |].
    destruct (nth 1 (strings.Split line ":") "" =? "")%string; [apply IH |].
    unfold bind.
    destruct (getDNSForConnection h (nth 0 (strings.Split line ":") "") tr)
      as [[[ipv4 ipv6] err] tr1].
    cbv beta iota zeta.
    destruct err as [e|]; [| destruct (nonEmpty ipv4 || nonEmpty ipv6) eqn:Hdns];
      rewrite IH; destruct (connectionQueries h rest tr1) as [qs tr2];
      cbn [fst snd ret flat_map interfaceOf warningOf];
      try rewrite Hdns; destruct info;
      cbn [appendWarning appendInterface status.Backend status.Interfaces
             status.Managed status.Warnings app];
      rewrite <- ?app_assoc; reflexivity.
Qed.

Lemma Contains_prefix (s rest : string) : strings.Contains (s ++ rest) s = true.
Proof.
  assert (H : String.prefix s (s ++ rest) = true).
  { induction s as [|c s IH]; [now destruct rest |].
    cbn. destruct (ascii_dec c c); [exact IH | contradiction]. }
  destruct s; cbn in *; [now destruct rest | now rewrite H].
Qed.












(** ** [Managed] tells the resolv.conf backend apart *)

Lemma readNetworkManager_managed (h : Host) (tr : Trace) (info : status.StatusInfo) :
  fst (fst (readNetworkManager h tr)) = Some info -> status.Managed info = true.
Proof.
  unfold readNetworkManager, bind, Output, ret.
  destruct (exitErr (exec h tr _)); [discriminate |].
  destruct (bufio.Scan _) as [lines [e|]]; rewrite activeConnectionsLoop_spec;
    cbn [fst]; [discriminate |].
  now intros [= <-].
Qed.

Lemma readSystemdResolved_managed (h : Host) (tr : Trace) (info : status.StatusInfo) :
  fst (fst (readSystemdResolved h tr)) = Some info -> status.Managed info = true.
Proof.
  unfold readSystemdResolved, bind, Output, ret, probe.CommandExists, emit.
  destruct (CommandExists (sysOps h) "resolvectl");
    [| destruct (CommandExists (sysOps h) "systemd-resolve")];
    try destruct (exitErr (exec h _ _)); cbn [fst]; try discriminate;
    now intros [= <-].
Qed.

Lemma readResolvConf_managed (h : Host) (tr : Trace) (info : status.StatusInfo) :
  fst (fst (readResolvConf h tr)) = Some info -> status.Managed info = false.
Proof.
  unfold readResolvConf, bind, Open, ret.
  destruct (openFile h tr "/etc/resolv.conf") as [content | e]; [| discriminate].
  destruct (bufio.Scan content) as [lines [e|]];
    destruct (resolvConfLoop lines [] []) as [ipv4 ipv6]; [discriminate |].
  destruct (nonEmpty ipv4 || nonEmpty ipv6); now intros [= <-].
Qed.

Lemma managed_false_only_for_resolvconf (h : Host) (backend : models.Backend)
    (tr : Trace) (info : status.StatusInfo) :
  fst (fst (ReadDNSConfig h backend tr)) = Some info ->
  (status.Managed info = false <-> backend = models.BackendResolvConf).
Proof.
  unfold ReadDNSConfig.
  destruct (backend =? models.BackendNetworkManager)%string eqn:Hnm;
    [| destruct (backend =? models.BackendSystemdResolved)%string eqn:Hsr;
       [| destruct (backend =? models.BackendResolvConf)%string eqn:Hrc]].
  - apply String.eqb_eq in Hnm. subst backend. intros H.
    rewrite (readNetworkManager_managed _ _ _ H). split; discriminate.
  - apply String.eqb_eq in Hsr. subst backend. intros H.
    rewrite (readSystemdResolved_managed _ _ _ H). split; discriminate.
  - apply String.eqb_eq in Hrc. subst backend. intros H.
    rewrite (readResolvConf_managed _ _ _ H). split; reflexivity.
  - discriminate.
Qed.

(** C6, with two provisos: no line of the file reaches
    [bufio.MaxScanTokenSize] bytes, and on no line does the keyword run
    on (a line that begins with the string [nameserver] without its
    first token being [nameserver], a second token following).  Reading
    such a /etc/resolv.conf through the resolv.conf backend succeeds and
    gives what the specification describes: blank and comment lines
    skipped, the address token of every [nameserver] directive in file
    order, the addresses with a colon as IPv6 and the others as IPv4,
    all under the one interface "system" (no interface when there is no
    address), and [Managed = false]; and whenever a read of any backend
    returns a status, [Managed] is false exactly for the resolv.conf
    backend. *)
Theorem resolvconf_read_matches_spec (h : Host) (tr : Trace) (content : string)
    (Hopen : openFile h tr "/etc/resolv.conf" = inl content)
    (Hfit : linesFit content = true)
    (Hkeywords : keywordsDelimited (textLines content) = true) :
  ReadDNSConfig h models.BackendResolvConf tr
  = ((Some (specResolvConfStatus (textLines content)), None),
     (tr ++ [OpenEv "/etc/resolv.conf"])%list)
  /\ status.Managed (specResolvConfStatus (textLines content)) = false
  /\ length (status.Interfaces (specResolvConfStatus (textLines content))) <= 1
  /\ (forall i, In i (status.Interfaces (specResolvConfStatus (textLines content))) ->
        status.Name i = "system"
        /\ (forall a, In a (status.IPv6 i) <->
                      In a (specAddresses (textLines content)) /\ strings.Contains a ":" = true)
        /\ (forall a, In a (status.IPv4 i) <->
                      In a (specAddresses (textLines content)) /\ strings.Contains a ":" = false))
  /\ (forall backend tr0 info,
        fst (fst (ReadDNSConfig h backend tr0)) = Some info ->
        (status.Managed info = false <-> backend = models.BackendResolvConf)).
Proof.
  split; [| split; [| split; [| split]]].
  - rewrite ReadDNSConfig_resolvconf.
    now apply readResolvConf_spec.
  - reflexivity.
  - unfold specResolvConfStatus. cbn [status.Interfaces].
    destruct (specAddresses (textLines content)); cbn; lia.
  - unfold specResolvConfStatus. cbn [status.Interfaces].
    destruct (specAddresses (textLines content)) as [|a0 addrs] eqn:Haddrs; [intros i [] |].
    intros i [<- | []]. cbn [status.Name status.IPv4 status.IPv6].
    split; [reflexivity |]. split; intros a; rewrite filter_In; unfold specIsIPv6;
      [reflexivity |].
    now rewrite negb_true_iff.
  - intros backend tr0 info. apply managed_false_only_for_resolvconf.
Qed.

Lemma resolvconf_read_matches_spec_witness :
  ReadDNSConfig (hostWithResolvConf sampleResolvConf) models.BackendResolvConf []
  = ((Some (status.mkStatusInfo models.BackendResolvConf
              [status.mkInterfaceStatus "system" ["1.1.1.1"; "9.9.9.9"]
                 ["2606:4700:4700::1111"]]
              false []), None),
     [OpenEv "/etc/resolv.conf"]).
Proof.
  exact (proj1 (resolvconf_read_matches_spec (hostWithResolvConf sampleResolvConf) []
                  sampleResolvConf eq_refl eq_refl eq_refl)).
Defined.

(** Both provisos of C6 are needed.  With a line of 65536 bytes after a
    [nameserver] line the read returns an error and no status at all.
    And the file [nameserverX 10.0.0.3], whose lines fit and which has
    no [nameserver] directive, is read as if it had one: the second
    token of its line is reported as a server of "system". *)
Lemma resolvconf_read_departs_from_directives :
  (let content := "nameserver 1.1.1.1" ++ nl
                  ++ filler (S (Z.to_nat (bufio.MaxScanTokenSize - 1))) in
   Z.of_nat (String.length (filler (S (Z.to_nat (bufio.MaxScanTokenSize - 1)))))
   = bufio.MaxScanTokenSize
   /\ ReadDNSConfig (hostWithResolvConf content) models.BackendResolvConf []
      = ((None, Some "error reading /etc/resolv.conf: bufio.Scanner: token too long"),
         [OpenEv "/etc/resolv.conf"]))
  /\ (let content := "nameserverX 10.0.0.3" ++ nl in
      linesFit content = true
      /\ specAddresses (textLines content) = []
      /\ ReadDNSConfig (hostWithResolvConf content) models.BackendResolvConf []
         = ((Some (status.mkStatusInfo models.BackendResolvConf
                     [status.mkInterfaceStatus "system" ["10.0.0.3"] []] false []), None),
            [OpenEv "/etc/resolv.conf"])).
Proof.
  split.
  - intros content. split.
    + rewrite length_filler, Nat2Z.inj_succ, Z2Nat.id; unfold bufio.MaxScanTokenSize; lia.
    + rewrite ReadDNSConfig_resolvconf.
      apply (readResolvConf_too_long _ [] ["nameserver 1.1.1.1"] content); [| reflexivity].
      unfold bufio.Scan, content. rewrite !nl_append.
      rewrite (rawLines_first_line "nameserver 1.1.1.1") by reflexivity.
      rewrite rawLines_filler. cbn [bufio.scanTokens].
      rewrite fits_filler.
      * reflexivity.
      * rewrite Nat2Z.inj_succ, Z2Nat.id; unfold bufio.MaxScanTokenSize; lia.
  - intros content. repeat split; vm_compute; reflexivity.
Qed.

(** C10, with the two provisos of C6: no line of the file reaches
    [bufio.MaxScanTokenSize] bytes and on no line does the keyword run
    on.  When such a /etc/resolv.conf has no [nameserver] directive, the
    read through the resolv.conf backend succeeds without error and its
    status has no interface at all: the "system" interface is left out,
    not reported with empty lists. *)
Theorem resolvconf_read_without_nameserver (h : Host) (tr : Trace) (content : string)
    (Hopen : openFile h tr "/etc/resolv.conf" = inl content)
    (Hfit : linesFit content = true)
    (Hkeywords : keywordsDelimited (textLines content) = true)
    (Hnone : hasNoNameserver content = true) :
  ReadDNSConfig h models.BackendResolvConf tr
  = ((Some (status.mkStatusInfo models.BackendResolvConf [] false []), None),
     (tr ++ [OpenEv "/etc/resolv.conf"])%list).
Proof.
  rewrite ReadDNSConfig_resolvconf.
  rewrite (readResolvConf_spec h tr content Hopen Hfit Hkeywords).
  unfold specResolvConfStatus.
  replace (specAddresses (textLines content)) with (@nil string); [reflexivity |].
  symmetry. unfold hasNoNameserver in Hnone. unfold specAddresses.
  clear Hopen Hfit Hkeywords.
  induction (textLines content) as [|text lines IH]; [reflexivity |].
  cbn [forallb flat_map] in *. apply andb_prop in Hnone as [Htext Hlines].
  destruct (specNameserverAddr text); [discriminate |]. now apply IH.
Qed.

Lemma resolvconf_read_without_nameserver_witness :
  let content := "# only comments" ++ nl ++ nl ++ "search lan" ++ nl ++ "   " ++ nl in
  ReadDNSConfig (hostWithResolvConf content) models.BackendResolvConf []
  = ((Some (status.mkStatusInfo models.BackendResolvConf [] false []), None),
     [OpenEv "/etc/resolv.conf"])
  /\ ReadDNSConfig (hostWithResolvConf "") models.BackendResolvConf []
     = ((Some (status.mkStatusInfo models.BackendResolvConf [] false []), None),
        [OpenEv "/etc/resolv.conf"]).
Proof.
  intros content. split.
  - exact (resolvconf_read_without_nameserver (hostWithResolvConf content) [] content
             eq_refl eq_refl eq_refl eq_refl).
  - exact (resolvconf_read_without_nameserver (hostWithResolvConf "") [] ""
             eq_refl eq_refl eq_refl eq_refl).
Defined.

Lemma dropCR_hash (s : string) :
  exists s', bufio.dropCR (String "#" s) = String "#" s'.
Proof. destruct s; cbn; eauto. Qed.

Lemma specNameserverAddr_comment (s : string) :
  specNameserverAddr (String "#" s) = None.
Proof.
  assert (Hlen : strings.spaceRuneLen (String "#" s) = 0)
    by (destruct s as [|b [|c s]]; reflexivity).
  assert (Hleft : strings.trimLeftSpace (String "#" s) = String "#" s).
  { unfold strings.trimLeftSpace. cbn [String.length strings.trimLeftFuel].
    now rewrite Hlen. }
  assert (Htrim : strings.TrimSpace (String "#" s) = String "#" (strings.trimRightSpace s)).
  { unfold strings.TrimSpace. rewrite Hleft. cbn [strings.trimRightSpace].
    unfold strings.allSpace. now rewrite Hleft. }
  unfold specNameserverAddr, specIgnoredLine. rewrite Htrim.
  destruct (strings.trimRightSpace s); reflexivity.
Qed.

(** Both provisos of C10 are needed.  A file that is one comment line
    of 65536 bytes has no [nameserver] directive, yet the read returns
    an error.  And the file [nameserver=1.2.3.4 foo], whose line fits
    and is no [nameserver] directive, gives a "system" interface with
    the server [foo]. *)
Lemma resolvconf_read_without_directive_departs :
  (let content := filler (S (Z.to_nat (bufio.MaxScanTokenSize - 1))) in
   Z.of_nat (String.length content) = bufio.MaxScanTokenSize
   /\ hasNoNameserver content = true
   /\ ReadDNSConfig (hostWithResolvConf content) models.BackendResolvConf []
      = ((None, Some "error reading /etc/resolv.conf: bufio.Scanner: token too long"),
         [OpenEv "/etc/resolv.conf"]))
  /\ (let content := "nameserver=1.2.3.4 foo" ++ nl in
      linesFit content = true
      /\ hasNoNameserver content = true
      /\ ReadDNSConfig (hostWithResolvConf content) models.BackendResolvConf []
         = ((Some (status.mkStatusInfo models.BackendResolvConf
                     [status.mkInterfaceStatus "system" ["foo"] []] false []), None),
            [OpenEv "/etc/resolv.conf"])).
Proof.
  split.
  - intros content.
    assert (Hlen : Z.of_nat (String.length content) = bufio.MaxScanTokenSize).
    { unfold content.
      rewrite length_filler, Nat2Z.inj_succ, Z2Nat.id; unfold bufio.MaxScanTokenSize; lia. }
    split; [exact Hlen |]. split.
    + unfold hasNoNameserver, textLines, content. rewrite rawLines_filler.
      cbn [map forallb filler].
      destruct (dropCR_hash (filler (Z.to_nat (bufio.MaxScanTokenSize - 1)))) as [s' ->].
      now rewrite specNameserverAddr_comment.
    + rewrite ReadDNSConfig_resolvconf.
      apply (readResolvConf_too_long _ [] [] content); [| reflexivity].
      unfold bufio.Scan, content. rewrite rawLines_filler.
      cbn [bufio.scanTokens].
      rewrite (fits_filler (S (Z.to_nat (bufio.MaxScanTokenSize - 1)))).
      * reflexivity.
      * rewrite Nat2Z.inj_succ, Z2Nat.id; unfold bufio.MaxScanTokenSize; lia.
  - intros content. repeat split; vm_compute; reflexivity.
Qed.

(* ===================================================================== *)
(** * Further properties of the detector                                  *)
(* ===================================================================== *)

Lemma DetectWithReason_hand_over (h : Host) (tr : Trace) :
  nmPassedOver h -> resolvedPassedOver h ->
  DetectWithReason h tr = detectResolvConf h (tr ++ handOverProbes h)%list.
Proof.
  intros Hnm Hresolved. rewrite (DetectWithReason_nm_not_running h tr Hnm).
  unfold detectSystemdResolved, handOverProbes. run_probe.
  destruct Hresolved as [Hcmd | Hsvc].
  - rewrite Hcmd. now rewrite <- !app_assoc.
  - destruct (CommandExists (sysOps h) "resolvectl"
              || CommandExists (sysOps h) "systemd-resolve").
    + rewrite Hsvc. now rewrite <- !app_assoc.
    + now rewrite <- !app_assoc.
Qed.

(** X1. When the NetworkManager service is not reported running, one of
    the two systemd-resolved tools is installed and the systemd-resolved
    service is reported running, detection selects systemd-resolved
    after four probes, without looking at /etc/resolv.conf; the reason
    names [resolvectl] when it is installed and [systemd-resolve]
    otherwise. *)
Theorem detect_systemd_resolved_selected (h : Host) (tr : Trace)
    (Hnm : nmPassedOver h)
    (Htool : CommandExists (sysOps h) "resolvectl"
             || CommandExists (sysOps h) "systemd-resolve" = true)
    (Hrunning : ServiceRunning (sysOps h) "systemd-resolved" = (true, None)) :
  DetectWithReason h tr
  = ((models.BackendSystemdResolved,
      (if CommandExists (sysOps h) "resolvectl" then "resolvectl" else "systemd-resolve")
      ++ " command available and systemd-resolved service is running",
      None),
     (tr ++ [ServiceRunningEv "NetworkManager"; CommandExistsEv "resolvectl";
             CommandExistsEv "systemd-resolve"; ServiceRunningEv "systemd-resolved"])%list).
Proof.
  rewrite (DetectWithReason_nm_not_running h tr Hnm).
  unfold detectSystemdResolved. run_probe. rewrite Htool, Hrunning.
  rewrite <- !app_assoc.
  now destruct (CommandExists (sysOps h) "resolvectl").
Qed.

Lemma detect_systemd_resolved_selected_witness :
  let h := quietHost (mockSystemOps ["nmcli"; "systemd-resolve"] ["systemd-resolved"]
                        (Some (mkFileMode true false))) in
  fst (DetectWithReason h [])
  = (models.BackendSystemdResolved,
     "systemd-resolve command available and systemd-resolved service is running", None).
Proof.
  intros h.
  exact (f_equal fst (detect_systemd_resolved_selected h [] eq_refl eq_refl eq_refl)).
Defined.

Lemma detect_resolved_query_error_is_fatal_aux (h : Host) (tr : Trace)
    (running : bool) (e : error) :
  nmPassedOver h ->
  CommandExists (sysOps h) "resolvectl" || CommandExists (sysOps h) "systemd-resolve" = true ->
  ServiceRunning (sysOps h) "systemd-resolved" = (running, Some e) ->
  DetectWithReason h tr
  = (("", "", Some ("failed to check systemd-resolved status: " ++ e)),
     (tr ++ [ServiceRunningEv "NetworkManager"; CommandExistsEv "resolvectl";
             CommandExistsEv "systemd-resolve"; ServiceRunningEv "systemd-resolved"])%list).
Proof.
  intros Hnm Htool Hquery.
  rewrite (DetectWithReason_nm_not_running h tr Hnm).
  unfold detectSystemdResolved. run_probe. rewrite Htool, Hquery.
  now rewrite <- !app_assoc.
Qed.

(** X2. When the NetworkManager service is not reported running and a
    systemd-resolved tool is installed, an error of the status query for
    systemd-resolved ends detection: the error is returned wrapped, with
    the zero backend and an empty reason, and /etc/resolv.conf is not
    looked at. *)
Theorem detect_resolved_query_error_is_fatal (h : Host) (tr : Trace)
    (running : bool) (e : error)
    (Hnm : nmPassedOver h)
    (Htool : CommandExists (sysOps h) "resolvectl"
             || CommandExists (sysOps h) "systemd-resolve" = true)
    (Hquery : ServiceRunning (sysOps h) "systemd-resolved" = (running, Some e)) :
  DetectWithReason h tr
  = (("", "", Some ("failed to check systemd-resolved status: " ++ e)),
     (tr ++ [ServiceRunningEv "NetworkManager"; CommandExistsEv "resolvectl";
             CommandExistsEv "systemd-resolve"; ServiceRunningEv "systemd-resolved"])%list).
Proof.
  rewrite (DetectWithReason_nm_not_running h tr Hnm).
  unfold detectSystemdResolved. run_probe. rewrite Htool, Hquery.
  now rewrite <- !app_assoc.
Qed.

Lemma detect_resolved_query_error_is_fatal_witness :
  let ops := mkSystemOps (fun cmd => (cmd =? "resolvectl")%string)
               (fun service => (false, Some "systemctl error"))
               (fun path => true) (fun path => (true, None)) (fun path => (false, None)) in
  fst (DetectWithReason (quietHost ops) [])
  = ("", "", Some "failed to check systemd-resolved status: systemctl error").
Proof.
  intros ops.
  exact (f_equal fst (detect_resolved_query_error_is_fatal (quietHost ops) [] false
                        "systemctl error" eq_refl eq_refl eq_refl)).
Defined.

(** X3. When steps 1 and 2 hand over and /etc/resolv.conf exists, is not
    a symlink and is a regular file, detection selects the resolv.conf
    backend with the reason "/etc/resolv.conf exists and is a regular
    file (not managed by a service)". *)
Theorem detect_plain_resolvconf_selected (h : Host) (tr : Trace)
    (Hnm : nmPassedOver h)
    (Hresolved : resolvedPassedOver h)
    (Hfile : FileExists (sysOps h) "/etc/resolv.conf" = true)
    (Hsymlink : IsSymlink (sysOps h) "/etc/resolv.conf" = (false, None))
    (Hregular : IsRegularFile (sysOps h) "/etc/resolv.conf" = (true, None)) :
  DetectWithReason h tr
  = ((models.BackendResolvConf,
      "/etc/resolv.conf exists and is a regular file (not managed by a service)", None),
     (tr ++ handOverProbes h
         ++ [FileExistsEv "/etc/resolv.conf"; IsSymlinkEv "/etc/resolv.conf";
             IsRegularFileEv "/etc/resolv.conf"])%list).
Proof.
  rewrite (DetectWithReason_hand_over h tr Hnm Hresolved).
  unfold detectResolvConf. run_probe. rewrite Hfile, Hsymlink, Hregular.
  now rewrite <- !app_assoc.
Qed.

Lemma detect_plain_resolvconf_selected_witness :
  let h := quietHost (mockSystemOps ["nmcli"; "resolvectl"] []
                        (Some (mkFileMode true false))) in
  fst (DetectWithReason h [])
  = (models.BackendResolvConf,
     "/etc/resolv.conf exists and is a regular file (not managed by a service)", None).
Proof.
  intros h.
  exact (f_equal fst (detect_plain_resolvconf_selected h [] eq_refl (or_intror eq_refl)
                        eq_refl eq_refl eq_refl)).
Defined.

(** X4. When steps 1 and 2 hand over and /etc/resolv.conf does not
    exist, or exists but is neither a symlink nor a regular file,
    detection fails with the error and the reason "no supported DNS
    backend found" and the zero backend. *)
Theorem detect_no_backend_found (h : Host) (tr : Trace)
    (Hnm : nmPassedOver h)
    (Hresolved : resolvedPassedOver h)
    (Hfile : FileExists (sysOps h) "/etc/resolv.conf" = false
             \/ (IsSymlink (sysOps h) "/etc/resolv.conf" = (false, None)
                 /\ IsRegularFile (sysOps h) "/etc/resolv.conf" = (false, None))) :
  fst (DetectWithReason h tr)
  = ("", "no supported DNS backend found", Some "no supported DNS backend found")
  /\ fst (Detect h tr) = ("", Some "no supported DNS backend found").
Proof.
  assert (H : fst (DetectWithReason h tr)
              = ("", "no supported DNS backend found", Some "no supported DNS backend found")).
  { rewrite (DetectWithReason_hand_over h tr Hnm Hresolved).
    unfold detectResolvConf. run_probe.
    destruct (FileExists (sysOps h) "/etc/resolv.conf"); [| reflexivity].
    destruct Hfile as [Hfile | [Hsymlink Hregular]]; [discriminate |].
    now rewrite Hsymlink, Hregular. }
  split; [exact H |].
  unfold Detect, bind. destruct (DetectWithReason h tr) as [[[b r] e] tr'].
  cbn in *. now injection H as -> _ ->.
Qed.

Lemma detect_no_backend_found_witness :
  let h := quietHost (mockSystemOps ["nmcli"] [] None) in
  fst (Detect h []) = ("", Some "no supported DNS backend found").
Proof.
  intros h.
  exact (proj2 (detect_no_backend_found h [] eq_refl (or_introl eq_refl) (or_introl eq_refl))).
Defined.

(** X5. When steps 1 and 2 hand over and /etc/resolv.conf exists, an
    error of the symlink check ends detection before the regular-file
    check is made, and an error of the regular-file check after a
    negative symlink check ends it too; both errors come back wrapped,
    with the zero backend and an empty reason. *)
Theorem detect_stat_error_is_fatal (h : Host) (tr : Trace) (answer : bool) (e : error)
    (Hnm : nmPassedOver h)
    (Hresolved : resolvedPassedOver h)
    (Hfile : FileExists (sysOps h) "/etc/resolv.conf" = true) :
  (IsSymlink (sysOps h) "/etc/resolv.conf" = (answer, Some e) ->
   DetectWithReason h tr
   = (("", "", Some ("failed to check if resolv.conf is a symlink: " ++ e)),
      (tr ++ handOverProbes h
          ++ [FileExistsEv "/etc/resolv.conf"; IsSymlinkEv "/etc/resolv.conf"])%list))
  /\ (IsSymlink (sysOps h) "/etc/resolv.conf" = (false, None) ->
      IsRegularFile (sysOps h) "/etc/resolv.conf" = (answer, Some e) ->
      DetectWithReason h tr
      = (("", "", Some ("failed to check if resolv.conf is a regular file: " ++ e)),
         (tr ++ handOverProbes h
             ++ [FileExistsEv "/etc/resolv.conf"; IsSymlinkEv "/etc/resolv.conf";
                 IsRegularFileEv "/etc/resolv.conf"])%list)).
Proof.
  rewrite (DetectWithReason_hand_over h tr Hnm Hresolved).
  unfold detectResolvConf. run_probe. rewrite Hfile.
  split.
  - intros ->. now rewrite <- !app_assoc.
  - intros -> ->. now rewrite <- !app_assoc.
Qed.

Lemma detect_stat_error_is_fatal_witness :
  let ops := mkSystemOps (fun cmd => false) (fun service => (false, None))
               (fun path => true) (fun path => (false, Some "permission denied"))
               (fun path => (false, None)) in
  fst (DetectWithReason (quietHost ops) [])
  = ("", "", Some "failed to check if resolv.conf is a regular file: permission denied").
Proof.
  intros ops.
  exact (f_equal fst (proj2 (detect_stat_error_is_fatal (quietHost ops) [] false
                               "permission denied" eq_refl (or_introl eq_refl) eq_refl)
                        eq_refl eq_refl)).
Defined.

Lemma DetectWithReason_outcome (h : Host) (tr : Trace) :
  match fst (DetectWithReason h tr) with
  | (backend, reason, None) =>
      (backend = models.BackendNetworkManager
       \/ backend = models.BackendSystemdResolved
       \/ backend = models.BackendResolvConf)
      /\ reason <> ""
  | (backend, _, Some _) => backend = ""
  end.
Proof.
  unfold DetectWithReason, detectSystemdResolved, detectResolvConf. run_probe.
  destruct (ServiceRunning (sysOps h) "NetworkManager") as [[|] errNM].
  - destruct (CommandExists (sysOps h) "nmcli"); cbn; [| reflexivity].
    split; [now left | discriminate].
  - assert (Hstep3 : forall tr0,
      match fst (detectResolvConf h tr0) with
      | (backend, reason, None) =>
          (backend = models.BackendNetworkManager
           \/ backend = models.BackendSystemdResolved
           \/ backend = models.BackendResolvConf) /\ reason <> ""
      | (backend, _, Some _) => backend = ""
      end).
    { intros tr0. unfold detectResolvConf. run_probe.
      destruct (FileExists (sysOps h) "/etc/resolv.conf"); [| reflexivity].
      destruct (IsSymlink (sysOps h) "/etc/resolv.conf") as [[|] [e|]]; try reflexivity;
        destruct (IsRegularFile (sysOps h) "/etc/resolv.conf") as [[|] [e'|]];
        try reflexivity.
      cbn. split; [now right; right | discriminate]. }
    unfold detectResolvConf in Hstep3. revert Hstep3. run_probe. intros Hstep3.
    destruct (CommandExists (sysOps h) "resolvectl") eqn:Hctl,
             (CommandExists (sysOps h) "systemd-resolve");
      cbn [orb negb]; try apply Hstep3;
      destruct (ServiceRunning (sysOps h) "systemd-resolved") as [[|] [e|]];
      try reflexivity; try apply Hstep3;
      (cbn; split; [now right; left | discriminate]).
Qed.

(** X6. On every host, detection returns a backend exactly when it
    returns no error: without error the backend is NetworkManager,
    systemd-resolved or resolv.conf (never netplan, never the zero
    value) and the reason is not empty; with an error the backend is
    the zero value. *)
Theorem detect_backend_iff_no_error (h : Host) (tr : Trace) :
  match fst (DetectWithReason h tr) with
  | (backend, reason, None) =>
      (backend = models.BackendNetworkManager
       \/ backend = models.BackendSystemdResolved
       \/ backend = models.BackendResolvConf)
      /\ reason <> ""
  | (backend, _, Some _) => backend = ""
  end
  /\ fst (Detect h tr)
     = (fst (fst (fst (DetectWithReason h tr))), snd (fst (DetectWithReason h tr))).
Proof.
  split.
  - apply DetectWithReason_outcome.
  - unfold Detect, bind. now destruct (DetectWithReason h tr) as [[[b r] e] tr'].
Qed.


(** X7. On every host, detection only queries the probes: it starts with
    the status of the NetworkManager service, makes at most six more
    queries, and never runs a command or opens a file through the host;
    [Detect] makes the same queries as [DetectWithReason]. *)
Theorem detect_only_probes (h : Host) (tr : Trace) :
  (exists evs,
      snd (DetectWithReason h tr) = (tr ++ ServiceRunningEv "NetworkManager" :: evs)%list
      /\ forallb isProbe evs = true
      /\ 1 <= length evs <= 6)
  /\ snd (Detect h tr) = snd (DetectWithReason h tr).
Proof.
  split.
  - unfold DetectWithReason, detectSystemdResolved, detectResolvConf. run_probe.
    destruct (ServiceRunning (sysOps h) "NetworkManager") as [[|] errNM];
      [destruct (CommandExists (sysOps h) "nmcli") |
       destruct (CommandExists (sysOps h) "resolvectl"),
                (CommandExists (sysOps h) "systemd-resolve");
       cbn [orb negb];
       try destruct (ServiceRunning (sysOps h) "systemd-resolved") as [[|] [e|]];
       try (destruct (FileExists (sysOps h) "/etc/resolv.conf");
            [destruct (IsSymlink (sysOps h) "/etc/resolv.conf") as [[|] [e1|]];
             try destruct (IsRegularFile (sysOps h) "/etc/resolv.conf") as [[|] [e2|]] |])];
      cbn [snd]; rewrite <- ?app_assoc;
      (eexists; split; [reflexivity | split; [reflexivity | cbn; lia]]).
  - unfold Detect, bind. now destruct (DetectWithReason h tr) as [[[b r] e] tr'].
Qed.

(** X8. With [DefaultSystemOps] on a host whose [systemctl] cannot be
    run, detection never selects NetworkManager or systemd-resolved:
    when a systemd-resolved tool is on the path it fails with the
    wrapped status error, otherwise it goes on to the resolv.conf step
    as if both services were inactive. *)
Theorem detect_without_systemctl (os : OS) (h : Host) (tr : Trace)
    (Hops : sysOps h = DefaultSystemOps os)
    (Hsystemctl : systemctlUnusable os) :
  fst (fst (Detect h tr)) <> models.BackendNetworkManager
  /\ fst (fst (Detect h tr)) <> models.BackendSystemdResolved
  /\ (CommandExists (sysOps h) "resolvectl" || CommandExists (sysOps h) "systemd-resolve" = true ->
      exists msg,
        fst (Detect h tr)
        = ("", Some ("failed to check systemd-resolved status: failed to check service status: "
                     ++ msg)))
  /\ (CommandExists (sysOps h) "resolvectl" || CommandExists (sysOps h) "systemd-resolve" = false ->
      DetectWithReason h tr = detectResolvConf h (tr ++ handOverProbes h)%list).
Proof.
  assert (Hnm : nmPassedOver h).
  { unfold nmPassedOver. rewrite Hops. cbn.
    destruct (Hsystemctl "NetworkManager") as [msg ->]. reflexivity. }
  assert (Hquery : exists msg, ServiceRunning (sysOps h) "systemd-resolved"
                               = (false, Some ("failed to check service status: " ++ msg))).
  { rewrite Hops. cbn. destruct (Hsystemctl "systemd-resolved") as [msg ->]. now exists msg. }
  destruct Hquery as [msg Hquery].
  destruct (CommandExists (sysOps h) "resolvectl"
            || CommandExists (sysOps h) "systemd-resolve") eqn:Htool.
  - pose proof (detect_resolved_query_error_is_fatal_aux h tr false _ Hnm Htool Hquery) as H.
    unfold Detect, bind. rewrite H. cbn.
    repeat split; try discriminate. intros _. now exists msg.
  - pose proof (DetectWithReason_hand_over h tr Hnm (or_introl Htool)) as H.
    assert (Hstep3 : fst (fst (fst (detectResolvConf h (tr ++ handOverProbes h)%list)))
                     = "" \/ fst (fst (fst (detectResolvConf h (tr ++ handOverProbes h)%list)))
                             = models.BackendResolvConf).
    { unfold detectResolvConf. run_probe.
      destruct (FileExists (sysOps h) "/etc/resolv.conf"); [| now left].
      destruct (IsSymlink (sysOps h) "/etc/resolv.conf") as [[|] [e|]]; try (now left);
        destruct (IsRegularFile (sysOps h) "/etc/resolv.conf") as [[|] [e'|]];
        try (now left). now right. }
    unfold Detect, bind. rewrite H.
    destruct (detectResolvConf h (tr ++ handOverProbes h)%list) as [[[b r] e] tr'].
    cbn in *. repeat split; try discriminate; try reflexivity;
      destruct Hstep3 as [-> | ->]; discriminate.
Qed.

Lemma detect_without_systemctl_witness :
  let h := quietHost (DefaultSystemOps brokenSystemctl) in
  fst (fst (Detect h [])) <> models.BackendNetworkManager
  /\ fst (fst (Detect h [])) <> models.BackendSystemdResolved.
Proof.
  intros h.
  pose proof (detect_without_systemctl brokenSystemctl h [] eq_refl
                (fun service => ex_intro _ _ eq_refl)) as (Hnm & Hresolved & _).
  split; [exact Hnm | exact Hresolved].
Defined.

(* ===================================================================== *)
(** * Further properties of the reader                                    *)
(* ===================================================================== *)

Lemma appendsOnly_ret {A} (ok : Event -> bool) (a : A) : appendsOnly ok (ret a).
Proof. intros tr. exists []. cbn. now rewrite app_nil_r. Qed.

Lemma appendsOnly_bind {A B} (ok : Event -> bool) (m : M A) (k : A -> M B) :
  appendsOnly ok m -> (forall a, appendsOnly ok (k a)) -> appendsOnly ok (bind m k).
Proof.
  intros Hm Hk tr. unfold bind.
  destruct (Hm tr) as (evs1 & H1 & Hok1). destruct (m tr) as [a tr1]. cbn in H1. subst tr1.
  destruct (Hk a (tr ++ evs1)%list) as (evs2 & H2 & Hok2).
  exists (evs1 ++ evs2)%list. rewrite H2, app_assoc, forallb_app, Hok1, Hok2. now split.
Qed.

Lemma appendsOnly_event {A} (ok : Event -> bool) (f : Trace -> A) (ev : Event) :
  ok ev = true -> appendsOnly ok (fun tr => (f tr, (tr ++ [ev])%list)).
Proof. intros Hok tr. exists [ev]. cbn. now rewrite Hok. Qed.

Lemma eqArgv_refl (argv : list string) : eqArgv argv argv = true.
Proof. induction argv as [|x argv IH]; cbn; [reflexivity |]. now rewrite String.eqb_refl. Qed.

Lemma isReportCommand_show (connName : string) : isReportCommand (nmShowDNS connName) = true.
Proof.
  unfold isReportCommand.
  replace (eqArgv (nmShowDNS connName) (nmShowDNS (nth 6 (nmShowDNS connName) ""))) with true.
  - now rewrite orb_true_r.
  - symmetry. apply eqArgv_refl.
Qed.

Ltac read_only_step :=
  match goal with
  | |- appendsOnly _ (ret _) => apply appendsOnly_ret
  | |- appendsOnly _ (bind _ _) => apply appendsOnly_bind
  | |- appendsOnly _ (Output _ (nmShowDNS _)) =>
      apply appendsOnly_event; apply isReportCommand_show
  | |- appendsOnly _ (Output _ _) => apply appendsOnly_event; reflexivity
  | |- appendsOnly _ (Open _ _) => apply appendsOnly_event; reflexivity
  | |- appendsOnly _ (probe.CommandExists _ _) => apply appendsOnly_event; reflexivity
  | |- forall _, _ => intro
  | |- appendsOnly _ (let (_, _) := ?p in _) => destruct p
  | |- appendsOnly _ (match ?o with Some _ => _ | None => _ end) => destruct o
  | |- appendsOnly _ (match ?o with inl _ => _ | inr _ => _ end) => destruct o
  | |- appendsOnly _ (if ?b then _ else _) => destruct b
  end.

Lemma getDNSForConnection_read_only (h : Host) (connName : string) :
  appendsOnly isReadEvent (getDNSForConnection h connName).
Proof. unfold getDNSForConnection. repeat read_only_step. Qed.

Lemma activeConnectionsLoop_read_only (h : Host) (lines : list string)
    (info : status.StatusInfo) :
  appendsOnly isReadEvent (activeConnectionsLoop h lines info).
Proof.
  revert info. induction lines as [|line rest IH]; intros info;
    cbn [activeConnectionsLoop]; [apply appendsOnly_ret |].
  destruct (length (strings.Split line ":") <? 2)%nat; [apply IH |].
  destruct (nth 1 (strings.Split line ":") "" =? "")%string; [apply IH |].
  apply appendsOnly_bind; [apply getDNSForConnection_read_only |].
  intros [[ipv4 ipv6] [e|]]; [apply IH |].
  destruct (nonEmpty ipv4 || nonEmpty ipv6); apply IH.
Qed.

Lemma ReadDNSConfig_read_only (h : Host) (backend : models.Backend) :
  appendsOnly isReadEvent (ReadDNSConfig h backend).
Proof.
  unfold ReadDNSConfig.
  destruct (backend =? models.BackendNetworkManager)%string;
    [| destruct (backend =? models.BackendSystemdResolved)%string;
       [| destruct (backend =? models.BackendResolvConf)%string]].
  - unfold readNetworkManager. repeat read_only_step.
    all: try apply activeConnectionsLoop_read_only.
    all: repeat read_only_step.
  - unfold readSystemdResolved. repeat read_only_step.
  - unfold readResolvConf. repeat read_only_step.
  - apply appendsOnly_ret.
Qed.

(** X9. A read never changes the host: whatever the backend, everything
    [ReadDNSConfig] does is query a probe, run one of the reporting
    commands (the listing of the active connections, the DNS fields of
    one connection, the status of systemd-resolved) or open
    /etc/resolv.conf; no connection is modified, no device reapplied, no
    resolver setting written or reverted. *)
Theorem read_never_changes_the_host (h : Host) (backend : models.Backend) :
  appendsOnly isReadEvent (ReadDNSConfig h backend)
  /\ (forall iface conn key value flag onoff cfg,
        isReadEvent (ExecEv (nmModify conn key value flag onoff)) = false
        /\ isReadEvent (ExecEv (nmReapply iface)) = false
        /\ isReadEvent (ExecEv (nmShowConnection iface)) = false
        /\ isReadEvent (ExecEv (resolvectlDNS cfg)) = false
        /\ isReadEvent (ExecEv ["resolvectl"; "revert"; iface]) = false).
Proof.
  split.
  - apply ReadDNSConfig_read_only.
  - intros iface conn key value flag onoff cfg. repeat split.
Qed.

Lemma getDNSForConnection_one_query (h : Host) (connName : string) (tr : Trace) :
  snd (getDNSForConnection h connName tr) = (tr ++ [ExecEv (nmShowDNS connName)])%list.
Proof.
  unfold getDNSForConnection, bind, Output.
  destruct (exitErr (exec h tr (nmShowDNS connName))); [reflexivity |].
  destruct (bufio.Scan _) as [lines scanErr].
  now destruct (dnsFieldsLoop lines [] []).
Qed.

Lemma connectionQueries_trace (h : Host) (lines : list string) (tr : Trace) :
  snd (connectionQueries h lines tr) = (tr ++ flat_map queryOf lines)%list.
Proof.
  revert tr. induction lines as [|line rest IH]; intros tr; cbn [connectionQueries flat_map].
  - cbn. now rewrite app_nil_r.
  - unfold queryOf at 1. destruct (activeConnection line) as [[connName device]|].
    + unfold bind. pose proof (getDNSForConnection_one_query h connName tr) as Hq.
      destruct (getDNSForConnection h connName tr) as [q tr1]. cbn in Hq. subst tr1.
      specialize (IH (tr ++ [ExecEv (nmShowDNS connName)])%list).
      destruct (connectionQueries h rest _) as [qs tr2]. cbn in *.
      now rewrite IH, <- app_assoc.
    + apply IH.
Qed.

Lemma scanTokens_delivered (raw : list string) :
  fst (bufio.scanTokens raw) = map bufio.dropCR (fittingPrefix raw).
Proof.
  induction raw as [|l rest IH]; [reflexivity |].
  cbn [bufio.scanTokens fittingPrefix]. destruct (bufio.fits l); [| reflexivity].
  destruct (bufio.scanTokens rest) as [ts e]. cbn [fst map] in *. now rewrite IH.
Qed.

Lemma fittingPrefix_all (raw : list string) :
  forallb bufio.fits raw = true -> fittingPrefix raw = raw.
Proof.
  induction raw as [|l rest IH]; [reflexivity |].
  cbn [forallb fittingPrefix]. intros H. apply andb_prop in H as [Hl Hrest].
  now rewrite Hl, (IH Hrest).
Qed.

(** X10. The NetworkManager read runs the listing of the active
    connections and then exactly one DNS query per line of the listing
    that the scanner delivers and that names an active connection (two
    colon-separated fields at least, the device not empty), in the order
    of the listing, whether these queries succeed or fail.  The scanner
    delivers the lines before the first one of [bufio.MaxScanTokenSize]
    bytes or more: every line of the listing when all are shorter, and
    then there is one query per listing line that names an active
    connection.  When the listing itself fails, the read returns the
    wrapped error and queries no connection. *)
Theorem nm_read_one_query_per_connection (h : Host) (tr : Trace) :
  (forall e, exitErr (exec h tr nmListConnections) = Some e ->
             ReadDNSConfig h models.BackendNetworkManager tr
             = ((None, Some ("failed to get active connections: " ++ e)),
                (tr ++ [ExecEv nmListConnections])%list))
  /\ (exitErr (exec h tr nmListConnections) = None ->
      snd (ReadDNSConfig h models.BackendNetworkManager tr)
      = (tr ++ ExecEv nmListConnections
            :: flat_map queryOf (deliveredLines (stdout (exec h tr nmListConnections))))%list)
  /\ (exitErr (exec h tr nmListConnections) = None ->
      linesFit (stdout (exec h tr nmListConnections)) = true ->
      snd (ReadDNSConfig h models.BackendNetworkManager tr)
      = (tr ++ ExecEv nmListConnections
            :: flat_map queryOf (textLines (stdout (exec h tr nmListConnections))))%list).
Proof.
  assert (Htrace : exitErr (exec h tr nmListConnections) = None ->
      snd (ReadDNSConfig h models.BackendNetworkManager tr)
      = (tr ++ ExecEv nmListConnections
            :: flat_map queryOf (deliveredLines (stdout (exec h tr nmListConnections))))%list).
  { rewrite ReadDNSConfig_networkmanager. unfold readNetworkManager, bind, Output.
    intros ->. unfold deliveredLines. rewrite <- scanTokens_delivered.
    fold (bufio.Scan (stdout (exec h tr nmListConnections))).
    destruct (bufio.Scan _) as [lines scanErr]. cbn [fst].
    rewrite activeConnectionsLoop_spec, connectionQueries_trace, <- app_assoc.
    now destruct scanErr. }
  split; [| split; [exact Htrace |]].
  - rewrite ReadDNSConfig_networkmanager. unfold readNetworkManager, bind, Output.
    now intros e ->.
  - intros Hok Hfit. rewrite (Htrace Hok). unfold deliveredLines, textLines.
    now rewrite (fittingPrefix_all _ Hfit).
Qed.

Lemma nm_read_one_query_per_connection_witness :
  snd (ReadDNSConfig
         (hostWithConnections ("Wired:eth0" ++ nl ++ "Wifi:wlan0" ++ nl ++ "lo:" ++ nl))
         models.BackendNetworkManager [])
  = [ExecEv nmListConnections; ExecEv (nmShowDNS "Wired"); ExecEv (nmShowDNS "Wifi")].
Proof.
  exact (proj2 (proj2 (nm_read_one_query_per_connection
                  (hostWithConnections ("Wired:eth0" ++ nl ++ "Wifi:wlan0" ++ nl ++ "lo:" ++ nl))
                  [])) eq_refl eq_refl).
Defined.









(* ===================================================================== *)
(** * Further properties of the systemd-resolved reader                   *)
(* ===================================================================== *)

Section ResolvedLoopInvariant.
(** [P] holds of the section being read, [Q] of every line. *)
Variable P : status.InterfaceStatus -> Prop.
Variable Q : string -> Prop.
Hypothesis P_new : forall text, Q text -> linkHeader text = true ->
  P (status.mkInterfaceStatus (linkName text) [] []).
Hypothesis P_add : forall cur addr, P cur -> P (addAddrTo cur addr).

Lemma saveInterface_invariant interfaces currentInterface :
  Forall (saved P) interfaces -> holdsOfCurrent P currentInterface ->
  Forall (saved P) (saveInterface interfaces currentInterface).
Proof.
  intros Hs Hc. unfold saveInterface. destruct currentInterface as [cur|]; [| exact Hs].
  destruct (hasDNS cur) eqn:Hdns; [| exact Hs].
  apply Forall_app. split; [exact Hs |]. constructor; [now split | constructor].
Qed.

Lemma resolvedLoop_invariant lines :
  forall interfaces currentInterface,
  Forall Q lines -> Forall (saved P) interfaces -> holdsOfCurrent P currentInterface ->
  Forall (saved P) (fst (resolvedLoop lines interfaces currentInterface))
  /\ holdsOfCurrent P (snd (resolvedLoop lines interfaces currentInterface)).
Proof.
  induction lines as [|text rest IH]; intros interfaces currentInterface Hq Hs Hc.
  - now split.
  - inversion Hq as [|? ? Hq1 Hq2]; subst.
    cbn [resolvedLoop]. cbv zeta.
    destruct (strings.HasPrefix (strings.TrimSpace text) "Link ") eqn:Hlink.
    + pose proof (saveInterface_invariant _ _ Hs Hc) as Hs'.
      destruct (3 <=? length (strings.Fields (strings.TrimSpace text)))%nat eqn:Hlen.
      * apply IH; [assumption | assumption |].
        apply (P_new text Hq1). unfold linkHeader. cbv zeta. now rewrite Hlink, Hlen.
      * now apply IH.
    + destruct currentInterface as [cur|]; [| now apply IH].
      destruct (strings.HasPrefix (strings.TrimSpace text) "Current DNS Server:"
                || strings.HasPrefix (strings.TrimSpace text) "DNS Servers:").
      * destruct (length (strings.SplitN (strings.TrimSpace text) ":" 2) =? 2)%nat;
          apply IH; try assumption. now apply P_add.
      * destruct (strings.HasPrefix (strings.TrimSpace text) "- "); [| now apply IH].
        destruct (negb _); apply IH; try assumption. now apply P_add.
Qed.

Lemma parseSystemdResolvedOutput_invariant (output : string) :
  Forall Q (fst (bufio.Scan output)) ->
  Forall (saved P) (parseSystemdResolvedOutput output).
Proof.
  intros Hq. unfold parseSystemdResolvedOutput.
  pose proof (resolvedLoop_invariant (fst (bufio.Scan output)) [] None Hq
                (Forall_nil _) I) as [Hs Hc].
  destruct (resolvedLoop _ [] None) as [interfaces currentInterface].
  now apply saveInterface_invariant.
Qed.
End ResolvedLoopInvariant.

Lemma forallb_snoc {A} (f : A -> bool) (xs : list A) (x : A) :
  forallb f xs = true -> f x = true -> forallb f (xs ++ [x]) = true.
Proof. intros Hxs Hx. rewrite forallb_app, Hxs. cbn. now rewrite Hx. Qed.

Lemma addAddrTo_sortedByColon (cur : status.InterfaceStatus) (addr : string) :
  sortedByColon cur = true -> sortedByColon (addAddrTo cur addr) = true.
Proof.
  unfold sortedByColon, addAddrTo, addAddr. intros H. apply andb_prop in H as [H6 H4].
  destruct (strings.Contains addr ":") eqn:Hc; cbn [status.IPv4 status.IPv6];
    apply andb_true_intro; split; try assumption; apply forallb_snoc; try assumption.
  now rewrite Hc.
Qed.

(** X12. Whatever [resolvectl status] printed, every interface that
    [parseSystemdResolvedOutput] reports has at least one address, each
    of its IPv6 entries contains a colon and none of its IPv4 entries
    does: sections without a server are dropped and the addresses are
    told apart by the colon alone. *)
Theorem resolved_interfaces_have_sorted_addresses (output : string) :
  Forall (fun i => hasDNS i = true /\ sortedByColon i = true)
    (parseSystemdResolvedOutput output).
Proof.
  pose proof (parseSystemdResolvedOutput_invariant
                (fun i => sortedByColon i = true) (fun _ => True)
                (fun _ _ _ => eq_refl) addAddrTo_sortedByColon output) as H.
  eapply Forall_impl; [| apply H].
  - intros i [Hs Hd]. now split.
  - apply Forall_forall. trivial.
Qed.

Lemma addAddrTo_Name (cur : status.InterfaceStatus) (addr : string) :
  status.Name (addAddrTo cur addr) = status.Name cur.
Proof. unfold addAddrTo. now destruct (addAddr _ _ _). Qed.

Lemma length_saveInterface interfaces currentInterface :
  length (saveInterface interfaces currentInterface)
  <= length interfaces + pending currentInterface.
Proof.
  unfold saveInterface. destruct currentInterface as [cur|]; cbn [pending]; [| lia].
  destruct (hasDNS cur); [rewrite length_app; cbn; lia | lia].
Qed.

Lemma resolvedLoop_count lines :
  forall interfaces currentInterface,
  length (fst (resolvedLoop lines interfaces currentInterface))
  + pending (snd (resolvedLoop lines interfaces currentInterface))
  <= length interfaces + pending currentInterface + length (filter startsLink lines).
Proof.
  induction lines as [|text rest IH]; intros interfaces currentInterface.
  - cbn. lia.
  - cbn [resolvedLoop filter]. cbv zeta. unfold startsLink at 1.
    destruct (strings.HasPrefix (strings.TrimSpace text) "Link ") eqn:Hlink.
    + pose proof (length_saveInterface interfaces currentInterface) as Hsave.
      cbn [length].
      destruct (3 <=? length (strings.Fields (strings.TrimSpace text)))%nat.
      * etransitivity; [apply IH |]. cbn [pending]. lia.
      * etransitivity; [apply IH |].
        destruct currentInterface as [cur|]; cbn [pending saveInterface] in *; [| lia].
        destruct (hasDNS cur); [rewrite length_app in *; cbn in *; lia | lia].
    + destruct currentInterface as [cur|]; [| apply IH].
      destruct (strings.HasPrefix (strings.TrimSpace text) "Current DNS Server:"
                || strings.HasPrefix (strings.TrimSpace text) "DNS Servers:").
      * destruct (length (strings.SplitN (strings.TrimSpace text) ":" 2) =? 2)%nat;
          (etransitivity; [apply IH |]); cbn [pending]; lia.
      * destruct (strings.HasPrefix (strings.TrimSpace text) "- "); [| apply IH].
        destruct (negb _); (etransitivity; [apply IH |]); cbn [pending]; lia.
Qed.

(** X13. Every interface that [parseSystemdResolvedOutput] reports is
    named by a [Link N (name)] header of the output (a line that, once
    trimmed, starts with [Link ] and has three fields at least: the name
    is the third field without its parentheses), and there are no more
    interfaces than lines that start with [Link ]; an output without
    such a line gives no interface, whatever servers it lists. *)
Theorem resolved_interfaces_come_from_link_headers (output : string) :
  let lines := fst (bufio.Scan output) in
  Forall (fun i => exists text, In text lines /\ linkHeader text = true
                                /\ status.Name i = linkName text)
    (parseSystemdResolvedOutput output)
  /\ length (parseSystemdResolvedOutput output) <= length (filter startsLink lines).
Proof.
  cbv zeta. split.
  - pose proof (parseSystemdResolvedOutput_invariant
                  (fun i => exists text, In text (fst (bufio.Scan output))
                                         /\ linkHeader text = true
                                         /\ status.Name i = linkName text)
                  (fun text => In text (fst (bufio.Scan output)))) as H.
    eapply Forall_impl; [| apply H].
    + now intros i [Hn _].
    + intros text Hin Hlink. now exists text.
    + intros cur addr [text Htext]. exists text. now rewrite addAddrTo_Name.
    + apply Forall_forall. trivial.
  - unfold parseSystemdResolvedOutput.
    pose proof (resolvedLoop_count (fst (bufio.Scan output)) [] None) as Hcount.
    destruct (resolvedLoop _ [] None) as [interfaces currentInterface].
    pose proof (length_saveInterface interfaces currentInterface).
    cbn [fst snd length pending] in Hcount. lia.
Qed.

(** X14. The systemd-resolved read asks once whether [resolvectl]
    exists and, if so, runs [resolvectl status] without looking for
    [systemd-resolve]; otherwise it asks for [systemd-resolve] and runs
    [systemd-resolve --status]; with neither it fails without running
    anything. A command that fails gives the wrapped error; one that
    succeeds gives a managed status without warnings whose interfaces
    are those parsed from its standard output. *)
Theorem resolved_read_prefers_resolvectl (h : Host) (tr : Trace) :
  let outcome (argv : list string) (tr' : Trace) :=
    match exitErr (exec h tr' argv) with
    | Some e => (None, Some ("failed to get systemd-resolved status: " ++ e))
    | None =>
        (Some (status.mkStatusInfo models.BackendSystemdResolved
                 (parseSystemdResolvedOutput (stdout (exec h tr' argv))) true []),
         None)
    end in
  let asked1 := (tr ++ [CommandExistsEv "resolvectl"])%list in
  let asked2 := (asked1 ++ [CommandExistsEv "systemd-resolve"])%list in
  ReadDNSConfig h models.BackendSystemdResolved tr
  = if CommandExists (sysOps h) "resolvectl" then
      (outcome ["resolvectl"; "status"] asked1,
       (asked1 ++ [ExecEv ["resolvectl"; "status"]])%list)
    else if CommandExists (sysOps h) "systemd-resolve" then
      (outcome ["systemd-resolve"; "--status"] asked2,
       (asked2 ++ [ExecEv ["systemd-resolve"; "--status"]])%list)
    else ((None, Some "neither resolvectl nor systemd-resolve found"), asked2).
Proof.
  cbv zeta.
  change (ReadDNSConfig h models.BackendSystemdResolved tr)
    with (readSystemdResolved h tr).
  unfold readSystemdResolved, bind, probe.CommandExists, emit, Output, ret, setInterfaces.
  destruct (CommandExists (sysOps h) "resolvectl").
  - now destruct (exitErr _).
  - destruct (CommandExists (sysOps h) "systemd-resolve"); [| reflexivity].
    now destruct (exitErr _).
Qed.

Lemma ReadDNSConfig_outcome (h : Host) (backend : models.Backend) (tr : Trace) :
  match fst (ReadDNSConfig h backend tr) with
  | (Some info, None) =>
      status.Backend info = backend
      /\ (backend = models.BackendNetworkManager
          \/ backend = models.BackendSystemdResolved
          \/ backend = models.BackendResolvConf)
      /\ (backend <> models.BackendNetworkManager -> status.Warnings info = [])
  | (None, Some _) => True
  | _ => False
  end.
Proof.
  unfold ReadDNSConfig.
  destruct (backend =? models.BackendNetworkManager)%string eqn:Hnm;
    [| destruct (backend =? models.BackendSystemdResolved)%string eqn:Hsr;
       [| destruct (backend =? models.BackendResolvConf)%string eqn:Hrc]].
  - apply String.eqb_eq in Hnm. subst backend.
    unfold readNetworkManager, bind, Output, ret.
    destruct (exitErr (exec h tr _)); [exact I |].
    destruct (bufio.Scan _) as [lines [e|]]; rewrite activeConnectionsLoop_spec;
      cbn [fst]; [exact I |].
    cbn [status.Backend]. split; [reflexivity | split; [now left | now intros []]].
  - apply String.eqb_eq in Hsr. subst backend.
    unfold readSystemdResolved, bind, Output, ret, probe.CommandExists, emit.
    destruct (CommandExists (sysOps h) "resolvectl");
      [| destruct (CommandExists (sysOps h) "systemd-resolve")];
      try destruct (exitErr (exec h _ _)); cbn [fst]; try exact I;
      (split; [reflexivity | split; [now right; left | reflexivity]]).
  - apply String.eqb_eq in Hrc. subst backend.
    unfold readResolvConf, bind, Open, ret.
    destruct (openFile h tr "/etc/resolv.conf") as [content | e]; [| exact I].
    destruct (bufio.Scan content) as [lines [e|]];
      destruct (resolvConfLoop lines [] []) as [ipv4 ipv6]; [exact I |].
    destruct (nonEmpty ipv4 || nonEmpty ipv6); cbn [fst];
      (split; [reflexivity | split; [now right; right | reflexivity]]).
  - exact I.
Qed.

(** X15. Whatever the backend and the host, [ReadDNSConfig] returns
    either a status and no error, or no status and an error, never both
    and never neither. A status it returns carries the backend that was
    asked for, which is then NetworkManager, systemd-resolved or
    resolv.conf, it is marked managed unless the backend is resolv.conf,
    and only a NetworkManager read can carry warnings. *)
Theorem read_returns_status_or_error (h : Host) (backend : models.Backend) (tr : Trace) :
  match fst (ReadDNSConfig h backend tr) with
  | (Some info, None) =>
      status.Backend info = backend
      /\ (backend = models.BackendNetworkManager
          \/ backend = models.BackendSystemdResolved
          \/ backend = models.BackendResolvConf)
      /\ status.Managed info = negb (backend =? models.BackendResolvConf)%string
      /\ (status.Warnings info = [] \/ backend = models.BackendNetworkManager)
  | (None, Some _) => True
  | _ => False
  end.
Proof.
  pose proof (ReadDNSConfig_outcome h backend tr) as Hout.
  pose proof (managed_false_only_for_resolvconf h backend tr) as Hmanaged.
  destruct (fst (ReadDNSConfig h backend tr)) as [[info|] [e|]]; try exact Hout.
  destruct Hout as (Hb & Hsupported & Hwarn). cbn [fst] in Hmanaged.
  specialize (Hmanaged info eq_refl).
  split; [exact Hb | split; [exact Hsupported | split]].
  - destruct (backend =? models.BackendResolvConf)%string eqn:Hrc; cbn [negb].
    + apply Hmanaged. now apply String.eqb_eq.
    + apply String.eqb_neq in Hrc. destruct (status.Managed info); [reflexivity |].
      now destruct Hrc; apply Hmanaged.
  - destruct (String.string_dec backend models.BackendNetworkManager) as [-> | Hne];
      [now right | left; now apply Hwarn].
Qed.

(* ===================================================================== *)
(** * Further properties of the writer                                    *)
(* ===================================================================== *)

(** Elements for which the body does nothing can be left out of the
    loop. *)
Lemma forRange_filter {A} (body : A -> M (option error)) (keep : A -> bool) (xs : list A) :
  (forall x tr, keep x = false -> body x tr = (None, tr)) ->
  forall tr, forRange body xs tr = forRange body (filter keep xs) tr.
Proof.
  intros Hskip. induction xs as [|x rest IH]; intros tr; [reflexivity |].
  cbn [filter forRange]. destruct (keep x) eqn:Hkeep.
  - cbn [forRange]. unfold thenDo, bind. destruct (body x tr) as [[e|] tr']; [reflexivity |].
    apply IH.
  - unfold thenDo, bind. rewrite (Hskip x tr Hkeep). apply IH.
Qed.

Lemma applyNetworkManagerBody_unnamed (h : Host) (cfg : models.DNSConfig) (tr : Trace) :
  hasName cfg = false -> applyNetworkManagerBody h cfg tr = (None, tr).
Proof.
  unfold hasName, applyNetworkManagerBody. intros H. apply negb_false_iff in H.
  now rewrite H.
Qed.

Lemma applySystemdResolvedBody_skipped (h : Host) (cfg : models.DNSConfig) (tr : Trace) :
  hasName cfg && hasAddresses cfg = false -> applySystemdResolvedBody h cfg tr = (None, tr).
Proof.
  unfold hasName, hasAddresses, applySystemdResolvedBody, nonEmpty. intros H.
  destruct (models.Name (models.Interface cfg) =? "")%string; [reflexivity |].
  cbn [negb andb] in H.
  destruct (models.IPv4 (models.DNS cfg) ++ models.IPv6 (models.DNS cfg))%list;
    [reflexivity | discriminate H].
Qed.

(** X16. [Apply] ignores the configs whose interface name is empty, on
    every backend: it behaves on a list of configs exactly as on the
    configs of the list that name an interface, in the same order. On
    systemd-resolved it ignores the configs without any address as well. *)
Theorem apply_ignores_unnamed_configs (h : Host) (backend : models.Backend)
    (configs : list models.DNSConfig) (tr : Trace) :
  Apply h backend configs tr = Apply h backend (filter hasName configs) tr
  /\ Apply h models.BackendSystemdResolved configs tr
     = Apply h models.BackendSystemdResolved
         (filter (fun cfg => hasName cfg && hasAddresses cfg) configs) tr.
Proof.
  split.
  - unfold Apply, applyNetworkManager, applySystemdResolved.
    destruct (backend =? models.BackendNetworkManager)%string;
      [| destruct (backend =? models.BackendSystemdResolved)%string; [| reflexivity]].
    + apply forRange_filter. intros cfg tr0. apply applyNetworkManagerBody_unnamed.
    + apply forRange_filter. intros cfg tr0 Hname.
      apply applySystemdResolvedBody_skipped. now rewrite Hname.
  - change (Apply h models.BackendSystemdResolved) with (applySystemdResolved h).
    unfold applySystemdResolved. apply forRange_filter.
    intros cfg tr0. apply applySystemdResolvedBody_skipped.
Qed.

Lemma forRange_all_succeed {A} (body : A -> M (option error)) (cmds : A -> list Event)
    (xs : list A) :
  (forall x tr, body x tr = (None, (tr ++ cmds x)%list)) ->
  forall tr, forRange body xs tr = (None, (tr ++ flat_map cmds xs)%list).
Proof.
  intros Hbody. induction xs as [|x rest IH]; intros tr.
  - cbn. unfold ret. now rewrite app_nil_r.
  - cbn [forRange flat_map]. unfold thenDo, bind. rewrite Hbody, IH.
    now rewrite <- app_assoc.
Qed.

Lemma flat_map_if {A B} (keep : A -> bool) (f : A -> B) (xs : list A) :
  flat_map (fun x => if keep x then [f x] else []) xs = map f (filter keep xs).
Proof.
  induction xs as [|x rest IH]; [reflexivity |].
  cbn [flat_map filter]. destruct (keep x); cbn; now rewrite IH.
Qed.

Lemma flat_map_singleton {A B} (f : A -> B) (xs : list A) :
  flat_map (fun x => [f x]) xs = map f xs.
Proof. induction xs as [|x rest IH]; [reflexivity |]. cbn. now rewrite IH. Qed.

(** X17. On a host where every command succeeds, [Apply] on
    systemd-resolved runs exactly one [resolvectl dns] command for each
    config that names an interface and has an address, in order, with
    the IPv4 addresses before the IPv6 ones, and [ResetToAutomatic] runs
    exactly one [resolvectl revert] for each interface it is given, an
    empty name included; both return no error. *)
Theorem resolved_writes_one_command_per_target (h : Host)
    (configs : list models.DNSConfig) (interfaces : list string) (tr : Trace)
    (Hsucceed : everyCommandSucceeds h) :
  Apply h models.BackendSystemdResolved configs tr
  = (None,
     (tr ++ map (fun cfg => ExecEv (resolvectlDNS cfg))
              (filter (fun cfg => hasName cfg && hasAddresses cfg) configs))%list)
  /\ ResetToAutomatic h models.BackendSystemdResolved interfaces tr
     = (None, (tr ++ map (fun iface => ExecEv ["resolvectl"; "revert"; iface]) interfaces)%list).
Proof.
  split.
  - change (Apply h models.BackendSystemdResolved) with (applySystemdResolved h).
    unfold applySystemdResolved. rewrite <- flat_map_if.
    apply forRange_all_succeed. intros cfg tr0.
    unfold applySystemdResolvedBody, hasName, hasAddresses, nonEmpty, resolvectlDNS.
    destruct (models.Name (models.Interface cfg) =? "")%string;
      [cbn [negb andb]; unfold ret; now rewrite app_nil_r |].
    cbn [negb andb].
    destruct (models.IPv4 (models.DNS cfg) ++ models.IPv6 (models.DNS cfg))%list
      as [|addr addrs] eqn:Hall; [cbn; unfold ret; now rewrite app_nil_r |].
    unfold bind, CombinedOutput. cbn [length Nat.eqb Nat.ltb Nat.leb app].
    now rewrite Hsucceed.
  - change (ResetToAutomatic h models.BackendSystemdResolved)
      with (resetSystemdResolved h).
    unfold resetSystemdResolved.
    rewrite <- flat_map_singleton.
    apply forRange_all_succeed. intros iface tr0.
    unfold resetSystemdResolvedBody, bind, CombinedOutput. now rewrite Hsucceed.
Qed.

Lemma resolved_writes_one_command_per_target_witness :
  let h := obligingHost (mockSystemOps ["resolvectl"] ["systemd-resolved"] None) "" in
  Apply h models.BackendSystemdResolved
    [configFor "eth0" ["1.1.1.1"] ["2606:4700:4700::1111"];
     configFor "" ["9.9.9.9"] []; configFor "wlan0" [] []] []
  = (None, [ExecEv ["resolvectl"; "dns"; "eth0"; "1.1.1.1"; "2606:4700:4700::1111"]])
  /\ ResetToAutomatic h models.BackendSystemdResolved ["eth0"; ""] []
     = (None, [ExecEv ["resolvectl"; "revert"; "eth0"]; ExecEv ["resolvectl"; "revert"; ""]]).
Proof.
  intros h.
  exact (resolved_writes_one_command_per_target h
           [configFor "eth0" ["1.1.1.1"] ["2606:4700:4700::1111"];
            configFor "" ["9.9.9.9"] []; configFor "wlan0" [] []]
           ["eth0"; ""] [] (fun tr argv => eq_refl)).
Defined.

Lemma getNMConnection_succeeds (h : Host) (iface : string) (tr : Trace) :
  everyCommandSucceeds h ->
  getNMConnection h iface tr
  = ((if (connectionOf h tr iface =? "")%string
      then ("", Some ("no active connection found for interface " ++ iface))
      else (connectionOf h tr iface, None)),
     (tr ++ [ExecEv (nmShowConnection iface)])%list).
Proof.
  intros Hsucceed. unfold getNMConnection, bind, CombinedOutput, connectionOf.
  rewrite Hsucceed. now destruct (strings.TrimSpace _ =? "")%string.
Qed.

(** X18. On a host where every command succeeds, [Apply] on
    NetworkManager does for a config that names an interface: look up
    the active connection of the device; if the answer is blank, fail
    with [no active connection found] without any further command;
    otherwise modify [ipv4.dns] of that connection when the config has
    IPv4 addresses (joined by spaces, automatic DNS ignored), then
    [ipv6.dns] likewise, then reapply the device, and go on with the
    next config. *)
Theorem nm_apply_looks_up_modifies_reapplies (h : Host) (cfg : models.DNSConfig)
    (rest : list models.DNSConfig) (tr : Trace)
    (Hsucceed : everyCommandSucceeds h)
    (Hname : hasName cfg = true) :
  let name := models.Name (models.Interface cfg) in
  let connName := connectionOf h tr name in
  Apply h models.BackendNetworkManager (cfg :: rest) tr
  = if (connName =? "")%string then
      (Some ("failed to get active connection for " ++ name
             ++ ": no active connection found for interface " ++ name),
       (tr ++ [ExecEv (nmShowConnection name)])%list)
    else
      Apply h models.BackendNetworkManager rest
        (tr ++ ExecEv (nmShowConnection name)
            :: map ExecEv (nmApplyCommands connName cfg))%list.
Proof.
  intros name connName.
  change (Apply h models.BackendNetworkManager) with (applyNetworkManager h).
  unfold applyNetworkManager. cbn [forRange]. unfold thenDo at 1, bind at 1.
  unfold applyNetworkManagerBody. fold name.
  unfold hasName in Hname. fold name in Hname. apply negb_true_iff in Hname.
  rewrite Hname. unfold bind at 1. rewrite (getNMConnection_succeeds h name tr Hsucceed).
  fold connName. destruct (connName =? "")%string; [reflexivity |].
  unfold nmApplyCommands. fold name.
  destruct (nonEmpty (models.IPv4 (models.DNS cfg))),
           (nonEmpty (models.IPv6 (models.DNS cfg)));
    cbv beta iota zeta delta [thenDo bind ret CombinedOutput];
    rewrite ?Hsucceed; cbn [map app]; rewrite <- ?app_assoc; reflexivity.
Qed.

Lemma nm_apply_looks_up_modifies_reapplies_witness :
  let h := obligingHost (mockSystemOps ["nmcli"] ["NetworkManager"] None) ("Wired 1" ++ nl) in
  Apply h models.BackendNetworkManager
    [configFor "eth0" ["1.1.1.1"; "1.0.0.1"] ["2606:4700:4700::1111"]] []
  = (None,
     [ExecEv ["nmcli"; "-g"; "GENERAL.CONNECTION"; "device"; "show"; "eth0"];
      ExecEv ["nmcli"; "connection"; "modify"; "Wired 1"; "ipv4.dns"; "1.1.1.1 1.0.0.1";
              "ipv4.ignore-auto-dns"; "yes"];
      ExecEv ["nmcli"; "connection"; "modify"; "Wired 1"; "ipv6.dns"; "2606:4700:4700::1111";
              "ipv6.ignore-auto-dns"; "yes"];
      ExecEv ["nmcli"; "device"; "reapply"; "eth0"]]).
Proof.
  intros h.
  exact (nm_apply_looks_up_modifies_reapplies h
           (configFor "eth0" ["1.1.1.1"; "1.0.0.1"] ["2606:4700:4700::1111"]) [] []
           (fun tr argv => eq_refl) eq_refl).
Defined.

(** X19. On a host where every command succeeds, [ResetToAutomatic] on
    NetworkManager does for each interface, an empty name included: look
    up the active connection of the device; if the answer is blank, fail
    without any further command; otherwise clear [ipv4.dns] and then
    [ipv6.dns] of that connection (automatic DNS no longer ignored),
    reapply the device, and go on with the next interface. *)
Theorem nm_reset_looks_up_clears_reapplies (h : Host) (iface : string)
    (rest : list string) (tr : Trace)
    (Hsucceed : everyCommandSucceeds h) :
  let connName := connectionOf h tr iface in
  ResetToAutomatic h models.BackendNetworkManager (iface :: rest) tr
  = if (connName =? "")%string then
      (Some ("failed to get connection for " ++ iface
             ++ ": no active connection found for interface " ++ iface),
       (tr ++ [ExecEv (nmShowConnection iface)])%list)
    else
      ResetToAutomatic h models.BackendNetworkManager rest
        (tr ++ ExecEv (nmShowConnection iface)
            :: map ExecEv (nmResetCommands connName iface))%list.
Proof.
  intros connName.
  change (ResetToAutomatic h models.BackendNetworkManager) with (resetNetworkManager h).
  unfold resetNetworkManager. cbn [forRange]. unfold thenDo at 1, bind at 1.
  unfold resetNetworkManagerBody.
  unfold bind at 1. rewrite (getNMConnection_succeeds h iface tr Hsucceed).
  fold connName. destruct (connName =? "")%string; [reflexivity |].
  unfold nmResetCommands.
  cbv beta iota zeta delta [thenDo bind ret CombinedOutput].
  rewrite ?Hsucceed. cbn [map app]. rewrite <- ?app_assoc. reflexivity.
Qed.

Lemma nm_reset_looks_up_clears_reapplies_witness :
  let h := obligingHost (mockSystemOps ["nmcli"] ["NetworkManager"] None) ("Wired 1" ++ nl) in
  ResetToAutomatic h models.BackendNetworkManager ["eth0"] []
  = (None,
     [ExecEv ["nmcli"; "-g"; "GENERAL.CONNECTION"; "device"; "show"; "eth0"];
      ExecEv ["nmcli"; "connection"; "modify"; "Wired 1"; "ipv4.dns"; "";
              "ipv4.ignore-auto-dns"; "no"];
      ExecEv ["nmcli"; "connection"; "modify"; "Wired 1"; "ipv6.dns"; "";
              "ipv6.ignore-auto-dns"; "no"];
      ExecEv ["nmcli"; "device"; "reapply"; "eth0"]]).
Proof.
  intros h.
  exact (nm_reset_looks_up_clears_reapplies h "eth0" [] [] (fun tr argv => eq_refl)).
Defined.

Lemma forRange_error {A} (body : A -> M (option error)) (xs : list A)
    (tr tr' : Trace) (e : error) :
  forRange body xs tr = (Some e, tr') ->
  exists x tr0 tr1, In x xs /\ body x tr0 = (Some e, tr1).
Proof.
  revert tr. induction xs as [|x rest IH]; intros tr; cbn [forRange]; [discriminate |].
  unfold thenDo, bind. destruct (body x tr) as [[e0|] tr0] eqn:Hx.
  - intros [= -> ->]. exists x, tr, tr'. split; [now left | exact Hx].
  - intros Hrest. destruct (IH _ Hrest) as (y & tr1 & tr2 & Hin & Hy).
    exists y, tr1, tr2. split; [now right | exact Hy].
Qed.

Lemma Contains_cons (c : ascii) (s sub : string) :
  strings.Contains s sub = true -> strings.Contains (String c s) sub = true.
Proof. intros H. cbn [strings.Contains]. rewrite H. apply orb_true_r. Qed.

Ltac names_target := repeat apply Contains_cons; apply Contains_prefix.

Ltac failing_command :=
  repeat (cbv beta iota zeta;
          match goal with
          | |- context [match exitErr ?r with Some _ => _ | None => _ end] =>
              destruct (exitErr r)
          end);
  cbv beta iota zeta.

Lemma applyNetworkManagerBody_error (h : Host) (cfg : models.DNSConfig)
    (tr tr' : Trace) (e : error) :
  applyNetworkManagerBody h cfg tr = (Some e, tr') ->
  hasName cfg = true /\ strings.Contains e (models.Name (models.Interface cfg)) = true.
Proof.
  unfold applyNetworkManagerBody, hasName.
  destruct (models.Name (models.Interface cfg) =? "")%string; [discriminate |].
  unfold bind at 1. destruct (getNMConnection h _ tr) as [[connName [err|]] tr1].
  - intros [= <- <-]. split; [reflexivity | names_target].
  - unfold thenDo, bind, ret, CombinedOutput.
    destruct (nonEmpty (models.IPv4 (models.DNS cfg))),
             (nonEmpty (models.IPv6 (models.DNS cfg)));
      failing_command; intros [= <- <-]; (split; [reflexivity | names_target]).
Qed.

Lemma applySystemdResolvedBody_error (h : Host) (cfg : models.DNSConfig)
    (tr tr' : Trace) (e : error) :
  applySystemdResolvedBody h cfg tr = (Some e, tr') ->
  hasName cfg = true /\ strings.Contains e (models.Name (models.Interface cfg)) = true.
Proof.
  unfold applySystemdResolvedBody, hasName.
  destruct (models.Name (models.Interface cfg) =? "")%string; [discriminate |].
  destruct (length _ =? 0)%nat; [discriminate |].
  unfold bind, ret, CombinedOutput. failing_command; intros [= <- <-].
  split; [reflexivity | names_target].
Qed.

Lemma resetNetworkManagerBody_error (h : Host) (iface : string)
    (tr tr' : Trace) (e : error) :
  resetNetworkManagerBody h iface tr = (Some e, tr') -> strings.Contains e iface = true.
Proof.
  unfold resetNetworkManagerBody.
  unfold bind at 1. destruct (getNMConnection h _ tr) as [[connName [err|]] tr1].
  - intros [= <- <-]. names_target.
  - unfold thenDo, bind, ret, CombinedOutput.
    failing_command; intros [= <- <-]; names_target.
Qed.

Lemma resetSystemdResolvedBody_error (h : Host) (iface : string)
    (tr tr' : Trace) (e : error) :
  resetSystemdResolvedBody h iface tr = (Some e, tr') -> strings.Contains e iface = true.
Proof.
  unfold resetSystemdResolvedBody, bind, ret, CombinedOutput.
  failing_command; intros [= <- <-]; names_target.
Qed.

(** X20. On NetworkManager and on systemd-resolved, every error that
    [Apply] returns comes from one of the configs it was given, one that
    names an interface, and its message contains that name; every error
    that [ResetToAutomatic] returns contains the name of one of the
    interfaces it was given. *)
Theorem write_errors_name_the_interface (h : Host) (backend : models.Backend)
    (tr tr' : Trace) (e : error)
    (Hsupported : backend = models.BackendNetworkManager
                  \/ backend = models.BackendSystemdResolved) :
  (forall configs,
      Apply h backend configs tr = (Some e, tr') ->
      exists cfg, In cfg configs /\ hasName cfg = true
                  /\ strings.Contains e (models.Name (models.Interface cfg)) = true)
  /\ (forall interfaces,
        ResetToAutomatic h backend interfaces tr = (Some e, tr') ->
        exists iface, In iface interfaces /\ strings.Contains e iface = true).
Proof.
  destruct Hsupported as [-> | ->]; split.
  - intros configs H. apply forRange_error in H as (cfg & tr0 & tr1 & Hin & Hbody).
    exists cfg. split; [exact Hin | exact (applyNetworkManagerBody_error _ _ _ _ _ Hbody)].
  - intros interfaces H. apply forRange_error in H as (iface & tr0 & tr1 & Hin & Hbody).
    exists iface. split; [exact Hin | exact (resetNetworkManagerBody_error _ _ _ _ _ Hbody)].
  - intros configs H. apply forRange_error in H as (cfg & tr0 & tr1 & Hin & Hbody).
    exists cfg. split; [exact Hin | exact (applySystemdResolvedBody_error _ _ _ _ _ Hbody)].
  - intros interfaces H. apply forRange_error in H as (iface & tr0 & tr1 & Hin & Hbody).
    exists iface. split; [exact Hin | exact (resetSystemdResolvedBody_error _ _ _ _ _ Hbody)].
Qed.

Lemma write_errors_name_the_interface_witness :
  let h := hostWithBadDevice "wlan0" in
  let configs := [configFor "eth0" ["1.1.1.1"] []; configFor "wlan0" ["1.1.1.1"] []] in
  exists cfg, In cfg configs /\ hasName cfg = true
    /\ strings.Contains
         ("failed to reapply configuration on device wlan0: Error: device not managed"
          ++ nl ++ ": exit status 1")
         (models.Name (models.Interface cfg)) = true.
Proof.
  intros h configs.
  eapply (proj1 (write_errors_name_the_interface h models.BackendNetworkManager [] _ _
                   (or_introl eq_refl)) configs).
  reflexivity.
Defined.

(* ===================================================================== *)
(** * Properties of the reset and status features                         *)
(* ===================================================================== *)

Lemma Detect_outcome (h : Host) (tr : Trace) :
  match fst (Detect h tr) with
  | (b, None) => supported b
  | (b, Some _) => b = ""
  end.
Proof.
  pose proof (DetectWithReason_outcome h tr) as H. unfold Detect, bind.
  destruct (DetectWithReason h tr) as [[[b reason] [e|]] tr']; cbn in *; [exact H |].
  apply H.
Qed.

Ltac probe_only_step :=
  match goal with
  | |- appendsOnly _ (ret _) => apply appendsOnly_ret
  | |- appendsOnly _ (bind _ _) => apply appendsOnly_bind
  | |- appendsOnly _ (probe.CommandExists _ _) => apply appendsOnly_event; reflexivity
  | |- appendsOnly _ (probe.ServiceRunning _ _) => apply appendsOnly_event; reflexivity
  | |- appendsOnly _ (probe.FileExists _ _) => apply appendsOnly_event; reflexivity
  | |- appendsOnly _ (probe.IsSymlink _ _) => apply appendsOnly_event; reflexivity
  | |- appendsOnly _ (probe.IsRegularFile _ _) => apply appendsOnly_event; reflexivity
  | |- forall _, _ => intro
  | |- appendsOnly _ (let (_, _) := ?p in _) => destruct p
  | |- appendsOnly _ (match ?o with Some _ => _ | None => _ end) => destruct o
  | |- appendsOnly _ (if ?b then _ else _) => destruct b
  end.

Lemma Detect_read_only (h : Host) : appendsOnly isReadEvent (Detect h).
Proof.
  unfold Detect, DetectWithReason, detectSystemdResolved, detectResolvConf.
  repeat probe_only_step.
Qed.

Lemma ResetToAutomatic_succeeds_on (h : Host) (b : models.Backend)
    (interfaces : list string) (tr tr' : Trace) :
  ResetToAutomatic h b interfaces tr = (None, tr') ->
  b = models.BackendNetworkManager \/ b = models.BackendSystemdResolved.
Proof.
  unfold ResetToAutomatic.
  destruct (b =? models.BackendNetworkManager)%string eqn:Hnm;
    [left; now apply String.eqb_eq |].
  destruct (b =? models.BackendSystemdResolved)%string eqn:Hsr;
    [right; now apply String.eqb_eq | discriminate].
Qed.

(** X21. [Reset] never dereferences a nil status: on every host it
    returns, in one of five ways. It returns an error that wraps the
    error of the detection, of the read or of the reset proper, having
    printed nothing; or it returns nil after printing the warning that
    no interface was found; or it returns nil after logging the backend,
    which is then NetworkManager or systemd-resolved, and printing the
    success message. *)
Theorem reset_returns_in_one_of_five_ways (RenderWarning RenderSuccess : string -> string)
    (h : Host) (tr : Trace) :
  match fst (Reset RenderWarning RenderSuccess h tr) with
  | (Panics, _) => False
  | (Returns None, out) =>
      out = resetWarned RenderWarning
      \/ exists b, (b = models.BackendNetworkManager \/ b = models.BackendSystemdResolved)
                   /\ out = resetSucceeded RenderSuccess b
  | (Returns (Some e), out) =>
      out = resetStarted
      /\ exists e', e = "failed to detect DNS backend: " ++ e'
                    \/ e = "failed to read current configuration: " ++ e'
                    \/ e = "failed to reset configuration: " ++ e'
  end.
Proof.
  unfold Reset. unfold bind at 1.
  pose proof (Detect_outcome h tr) as Hdetect.
  destruct (Detect h tr) as [[b [e|]] tr1]; cbn [fst] in Hdetect.
  - cbn. split; [reflexivity | exists e; now left].
  - unfold bind at 1. pose proof (ReadDNSConfig_outcome h b tr1) as Hread.
    destruct (ReadDNSConfig h b tr1) as [[[info|] [e|]] tr2]; cbn [fst] in Hread;
      try contradiction.
    + cbv beta iota zeta.
      destruct (length (map status.Name (status.Interfaces info)) =? 0)%nat;
        [cbn; now left |].
      unfold bind.
      destruct (ResetToAutomatic h b (map status.Name (status.Interfaces info)) tr2)
        as [[e|] tr3] eqn:Hreset; cbn.
      * split; [reflexivity | exists e; right; now right].
      * right. exists b. split; [| reflexivity].
        apply (ResetToAutomatic_succeeds_on _ _ _ _ _ Hreset).
    + cbn. split; [reflexivity | exists e; right; now left].
Qed.

(** X22. [Reset] changes nothing on the host before it knows what to
    reset: everything it does is query probes, run reporting commands or
    open /etc/resolv.conf, unless the detection selected NetworkManager
    or systemd-resolved and the read reported at least one interface; in
    that case what follows the read is what [ResetToAutomatic] does for
    the names of the reported interfaces, in the order of the report. *)
Theorem reset_writes_only_after_a_read (RenderWarning RenderSuccess : string -> string)
    (h : Host) (tr : Trace) :
  exists evs,
    snd (Reset RenderWarning RenderSuccess h tr) = (tr ++ evs)%list
    /\ (forallb isReadEvent evs = true
        \/ exists b info tr1 tr2,
             Detect h tr = ((b, None), tr1)
             /\ ReadDNSConfig h b tr1 = ((Some info, None), tr2)
             /\ (b = models.BackendNetworkManager \/ b = models.BackendSystemdResolved)
             /\ status.Interfaces info <> []
             /\ (tr ++ evs)%list
                = snd (ResetToAutomatic h b (map status.Name (status.Interfaces info)) tr2)).
Proof.
  destruct (Detect_read_only h tr) as (evs1 & Htr1 & Hok1).
  unfold Reset. unfold bind at 1.
  destruct (Detect h tr) as [[b [e|]] tr1] eqn:Hdetect; cbn [snd] in Htr1; subst tr1.
  - exists evs1. split; [reflexivity | now left].
  - destruct (ReadDNSConfig_read_only h b (tr ++ evs1)%list) as (evs2 & Htr2 & Hok2).
    assert (Hok : forallb isReadEvent (evs1 ++ evs2)%list = true)
      by (now rewrite forallb_app, Hok1, Hok2).
    unfold bind at 1.
    destruct (ReadDNSConfig h b (tr ++ evs1)%list) as [[[info|] [e|]] tr2] eqn:Hread;
      cbn [snd] in Htr2; subst tr2; rewrite <- app_assoc in *;
      try (exists (evs1 ++ evs2)%list; split; [reflexivity | now left]).
    cbv beta iota zeta.
    destruct (status.Interfaces info) as [|i ifaces] eqn:Hifaces;
      [exists (evs1 ++ evs2)%list; split; [reflexivity | now left] |].
    cbn [map length Nat.eqb]. unfold bind.
    destruct (appends_ResetToAutomatic h b (map status.Name (i :: ifaces))
                (tr ++ evs1 ++ evs2)%list) as [evs3 Htr3].
    cbn [map] in Htr3.
    destruct (ResetToAutomatic h b (status.Name i :: map status.Name ifaces)
                (tr ++ evs1 ++ evs2)%list) as [[e|] tr3] eqn:Hreset;
      cbn [snd] in Htr3; subst tr3;
      (exists ((evs1 ++ evs2) ++ evs3)%list;
       split; [cbn [snd]; now rewrite <- !app_assoc |]).
    + destruct (b =? models.BackendNetworkManager)%string eqn:Hnm;
        [| destruct (b =? models.BackendSystemdResolved)%string eqn:Hsr].
      * right. exists b, info, (tr ++ evs1)%list, (tr ++ evs1 ++ evs2)%list.
        rewrite Hifaces. cbn [map snd].
        apply String.eqb_eq in Hnm.
        repeat split; try assumption; [now left | discriminate | rewrite Hreset; cbn [snd]; now rewrite <- !app_assoc].
      * right. exists b, info, (tr ++ evs1)%list, (tr ++ evs1 ++ evs2)%list.
        rewrite Hifaces. cbn [map snd].
        apply String.eqb_eq in Hsr.
        repeat split; try assumption; [now right | discriminate | rewrite Hreset; cbn [snd]; now rewrite <- !app_assoc].
      * left. unfold ResetToAutomatic in Hreset. rewrite Hnm, Hsr in Hreset.
        unfold ret in Hreset. injection Hreset as _ Heq.
        rewrite <- (app_nil_r (tr ++ evs1 ++ evs2)%list) in Heq at 1.
        rewrite !app_assoc in Heq. apply app_inv_head in Heq. subst evs3.
        now rewrite app_nil_r.
    + right. exists b, info, (tr ++ evs1)%list, (tr ++ evs1 ++ evs2)%list.
      rewrite Hifaces. cbn [map snd].
      repeat split; try assumption;
        [apply (ResetToAutomatic_succeeds_on _ _ _ _ _ Hreset) | discriminate
        | rewrite Hreset; cbn [snd]; now rewrite <- !app_assoc].
Qed.

Lemma Detect_plain_resolvconf (h : Host) (tr : Trace) :
  nmPassedOver h -> resolvedPassedOver h ->
  FileExists (sysOps h) "/etc/resolv.conf" = true ->
  IsSymlink (sysOps h) "/etc/resolv.conf" = (false, None) ->
  IsRegularFile (sysOps h) "/etc/resolv.conf" = (true, None) ->
  Detect h tr
  = ((models.BackendResolvConf, None), (tr ++ handOverProbes h ++ resolvConfProbes)%list).
Proof.
  intros Hnm Hresolved Hfile Hsymlink Hregular. unfold Detect, bind.
  rewrite (DetectWithReason_hand_over h tr Hnm Hresolved).
  unfold detectResolvConf. run_probe. rewrite Hfile, Hsymlink, Hregular.
  unfold ret, resolvConfProbes. now rewrite <- !app_assoc.
Qed.

(** X23. On a host where detection selects resolv.conf (neither
    service detected, /etc/resolv.conf a plain file) and the file is
    read with lines that fit the scanner, [Reset] can reset nothing:
    when the loop of [readResolvConf] takes at least one address from
    the lines of the file, [Reset] fails with [unsupported backend for
    reset: resolv.conf], wrapped, and when it takes none, [Reset] prints
    the warning that no interface was found and returns nil.  Either way
    it only queried the probes and opened the file. *)
Theorem reset_on_resolvconf_resets_nothing (RenderWarning RenderSuccess : string -> string)
    (h : Host) (tr : Trace) (content : string)
    (Hnm : nmPassedOver h)
    (Hresolved : resolvedPassedOver h)
    (Hfile : FileExists (sysOps h) "/etc/resolv.conf" = true)
    (Hsymlink : IsSymlink (sysOps h) "/etc/resolv.conf" = (false, None))
    (Hregular : IsRegularFile (sysOps h) "/etc/resolv.conf" = (true, None))
    (Hopen : openFile h (tr ++ handOverProbes h ++ resolvConfProbes)%list "/etc/resolv.conf"
             = inl content)
    (Hfit : linesFit content = true) :
  Reset RenderWarning RenderSuccess h tr
  = ((let (ipv4, ipv6) := resolvConfLoop (textLines content) [] [] in
      if nonEmpty ipv4 || nonEmpty ipv6 then
        (Returns (Some ("failed to reset configuration: "
                        ++ "unsupported backend for reset: resolv.conf")),
         resetStarted)
      else (Returns None, resetWarned RenderWarning)),
     (tr ++ handOverProbes h ++ resolvConfProbes ++ [OpenEv "/etc/resolv.conf"])%list).
Proof.
  unfold Reset. unfold bind at 1.
  rewrite (Detect_plain_resolvconf h tr Hnm Hresolved Hfile Hsymlink Hregular).
  unfold bind at 1. rewrite ReadDNSConfig_resolvconf.
  unfold readResolvConf, bind at 1, Open. rewrite Hopen, (Scan_fits _ Hfit).
  destruct (resolvConfLoop (textLines content) [] []) as [ipv4 ipv6].
  destruct (nonEmpty ipv4 || nonEmpty ipv6);
    unfold ret, bind; cbn [status.Interfaces appendInterface map length Nat.eqb app];
    rewrite <- !app_assoc; reflexivity.
Qed.

Lemma reset_on_resolvconf_resets_nothing_witness :
  fst (Reset (fun s => s) (fun s => s) (plainResolvConfHost sampleResolvConf) [])
  = (Returns (Some "failed to reset configuration: unsupported backend for reset: resolv.conf"),
     resetStarted)
  /\ fst (Reset (fun s => s) (fun s => s) (plainResolvConfHost ("search lan" ++ nl)) [])
     = (Returns None, resetWarned (fun s => s)).
Proof.
  split.
  - exact (f_equal fst
             (reset_on_resolvconf_resets_nothing (fun s => s) (fun s => s)
                (plainResolvConfHost sampleResolvConf) [] sampleResolvConf
                eq_refl (or_introl eq_refl) eq_refl eq_refl eq_refl eq_refl eq_refl)).
  - exact (f_equal fst
             (reset_on_resolvconf_resets_nothing (fun s => s) (fun s => s)
                (plainResolvConfHost ("search lan" ++ nl)) [] ("search lan" ++ nl)
                eq_refl (or_introl eq_refl) eq_refl eq_refl eq_refl eq_refl eq_refl)).
Defined.

(** X24. [GetStatus] returns either a status and no error or no status
    and an error. A status comes with the backend that was detected,
    which is NetworkManager, systemd-resolved or resolv.conf and was
    logged; it is marked managed unless the backend is resolv.conf. An
    error wraps that of the detection, before any backend is logged, or
    that of the read. Whatever the outcome, the host was only queried:
    probes, reporting commands, /etc/resolv.conf opened. *)
Theorem status_reports_detected_backend (h : Host) (tr : Trace) :
  match fst (GetStatus h tr) with
  | (Some info, None, out) =>
      supported (status.Backend info)
      /\ fst (fst (Detect h tr)) = status.Backend info
      /\ status.Managed info = negb (status.Backend info =? models.BackendResolvConf)%string
      /\ out = statusDetected (status.Backend info)
  | (None, Some e, out) =>
      (exists e', e = "failed to detect DNS backend: " ++ e' /\ out = statusStarted)
      \/ (exists e' b, e = "failed to read DNS configuration: " ++ e'
                       /\ supported b /\ out = statusDetected b)
  | _ => False
  end
  /\ appendsOnly isReadEvent (GetStatus h).
Proof.
  split.
  - unfold GetStatus. unfold bind at 1.
    pose proof (Detect_outcome h tr) as Hdetect.
    destruct (Detect h tr) as [[b [e|]] tr1]; cbn [fst] in Hdetect.
    + cbn. left. exists e. now split.
    + cbv zeta. unfold bind at 1.
      pose proof (ReadDNSConfig_outcome h b tr1) as Hread.
      pose proof (managed_false_only_for_resolvconf h b tr1) as Hmanaged.
      destruct (ReadDNSConfig h b tr1) as [[[info|] [e|]] tr2]; cbn [fst] in Hread, Hmanaged;
        try contradiction.
      * destruct Hread as (Hb & _ & _). specialize (Hmanaged info eq_refl).
        cbn. subst b. repeat split; try assumption.
        destruct (status.Backend info =? models.BackendResolvConf)%string eqn:Hrc; cbn [negb].
        -- apply Hmanaged. now apply String.eqb_eq.
        -- apply String.eqb_neq in Hrc. destruct (status.Managed info); [reflexivity |].
           now destruct Hrc; apply Hmanaged.
      * cbn. right. exists e, b. now repeat split.
  - unfold GetStatus.
    apply appendsOnly_bind; [apply Detect_read_only |].
    intros [b [e|]]; [apply appendsOnly_ret |]. cbv zeta.
    apply appendsOnly_bind; [apply ReadDNSConfig_read_only |].
    intros [info [e|]]; apply appendsOnly_ret.
Qed.

(* ===================================================================== *)
(** * The detection over the real probes                                  *)
(* ===================================================================== *)

(** X25. With [DefaultSystemOps], once steps 1 and 2 handed over, the
    resolv.conf step depends on [os.Stat] first: when it fails on
    /etc/resolv.conf (no file, or a symbolic link whose target is
    missing) the detection ends with [no supported DNS backend found]
    and the link is never looked at. When it succeeds, a failing
    [os.Lstat] is the only error that a probe can still cause; a link
    gives [resolv.conf is managed by a service]; otherwise the backend is
    resolv.conf exactly when [os.Stat] reported a regular file. *)
Theorem detect_resolvconf_step_on_real_probes (os : OS) (h : Host) (tr : Trace)
    (Hops : sysOps h = DefaultSystemOps os)
    (Hnm : nmPassedOver h)
    (Hresolved : resolvedPassedOver h) :
  let notFound : models.Backend * string * option error :=
    ("", "no supported DNS backend found", Some "no supported DNS backend found") in
  DetectWithReason h tr
  = match Stat os "/etc/resolv.conf" with
    | inr _ => (notFound, (tr ++ handOverProbes h ++ [FileExistsEv "/etc/resolv.conf"])%list)
    | inl info =>
        match Lstat os "/etc/resolv.conf" with
        | inr e =>
            (("", "", Some ("failed to check if resolv.conf is a symlink: " ++ e)),
             (tr ++ handOverProbes h
                 ++ [FileExistsEv "/etc/resolv.conf"; IsSymlinkEv "/etc/resolv.conf"])%list)
        | inl linfo =>
            if ModeSymlink linfo then
              (("", "resolv.conf is a symlink (managed by a service)",
                Some "resolv.conf is managed by a service"),
               (tr ++ handOverProbes h
                   ++ [FileExistsEv "/etc/resolv.conf"; IsSymlinkEv "/etc/resolv.conf"])%list)
            else
              ((if IsRegular info then
                  (models.BackendResolvConf,
                   "/etc/resolv.conf exists and is a regular file (not managed by a service)",
                   None)
                else notFound),
               (tr ++ handOverProbes h ++ resolvConfProbes)%list)
        end
    end.
Proof.
  intros notFound. rewrite (DetectWithReason_hand_over h tr Hnm Hresolved).
  generalize (handOverProbes h). intros probes.
  unfold detectResolvConf, resolvConfProbes. run_probe. rewrite Hops.
  cbn [FileExists IsSymlink IsRegularFile DefaultSystemOps].
  destruct (Stat os "/etc/resolv.conf") as [info | e];
    [| unfold ret; now rewrite <- !app_assoc].
  destruct (Lstat os "/etc/resolv.conf") as [linfo | e];
    [| unfold ret; now rewrite <- !app_assoc].
  destruct (ModeSymlink linfo); [unfold ret; now rewrite <- !app_assoc |].
  destruct (IsRegular info); unfold ret; now rewrite <- !app_assoc.
Qed.

Lemma detect_resolvconf_step_on_real_probes_witness :
  let h := quietHost (DefaultSystemOps danglingResolvConf) in
  DetectWithReason h []
  = (("", "no supported DNS backend found", Some "no supported DNS backend found"),
     [ServiceRunningEv "NetworkManager"; CommandExistsEv "resolvectl";
      CommandExistsEv "systemd-resolve"; FileExistsEv "/etc/resolv.conf"]).
Proof.
  intros h.
  exact (detect_resolvconf_step_on_real_probes danglingResolvConf h [] eq_refl eq_refl
           (or_introl eq_refl)).
Defined.
